(** * LUMOPlay usage dashboard: data_viz.py

    A shallow embedding of the data path of [data_viz.py]: the loader
    ([load_data] with its nested [clean_device_name]), the row filter
    ([mask] / [filtered_df]), the KPI and chart aggregations, and the
    top-level script with its [st.error] / [st.stop] gate.

    Conventions of the model.
    - A Python [str] is a [string] of bytes (UTF-8).  Every literal the
      script compares against is ASCII, so prefix tests, slicing after an
      ASCII prefix and single-character replacement agree with Python's
      code-point semantics, and byte-wise lexicographic order is code-point
      order.
    - A data frame is the list of its column labels together with the list
      of its rows; a row is a record holding the cells of the columns the
      script reads.  Cells hold values of their column's type: missing
      values (NaN / NaT) are outside the model.
    - [duration_minutes] is numeric, and a number is the rational it
      denotes.  A column is summed exactly; a quotient is rounded to the
      nearest binary64 value, as a float64 division is.  The exact sum is
      the computed one whenever the cells are integers whose absolute
      values add up to less than [2^53]: then no int64 or float64
      addition rounds or wraps, in whatever order they are made.  Beyond
      that the sum is an idealisation. *)

From Stdlib Require Import List String Ascii Bool Arith ZArith QArith Lia.
From Stdlib Require Import Sorting.Sorted Sorting.Permutation.
From Stdlib Require Import DecimalString Qround Qabs.
Import ListNotations.

Local Close Scope Q_scope.
Local Open Scope list_scope.

(** ** Python string primitives used by the script *)

Module PyStr.

(** [s.startswith(p)] *)
Definition startswith (s p : string) : bool := String.prefix p s.

(** [len(s)] *)
Definition len (s : string) : nat := String.length s.

(** [s[n:]] *)
Fixpoint slice_from (n : nat) (s : string) : string :=
  match n, s with
  | O, _ => s
  | S _, EmptyString => EmptyString
  | S n', String _ s' => slice_from n' s'
  end.

(** [s.replace(a, b)] for one-character [a] and [b] *)
Fixpoint replace (a b : ascii) (s : string) : string :=
  match s with
  | EmptyString => EmptyString
  | String c s' =>
      String (if Ascii.eqb c a then b else c) (replace a b s')
  end.

(** [c.lower()], on the ASCII letters *)
Definition lower_char (c : ascii) : ascii :=
  let n := nat_of_ascii c in
  if (65 <=? n) && (n <=? 90) then ascii_of_nat (n + 32) else c.

(** [s.lower()] *)
Fixpoint lower (s : string) : string :=
  match s with
  | EmptyString => EmptyString
  | String c s' => String (lower_char c) (lower s')
  end.

(** [c.isspace()], on the ASCII range: TAB, LF, VT, FF, CR, the four
    separators FS..US and the space. *)
Definition isspace (c : ascii) : bool :=
  let n := nat_of_ascii c in
  ((9 <=? n) && (n <=? 13)) || ((28 <=? n) && (n <=? 32)).

(** [s.lstrip()] *)
Fixpoint lstrip (s : string) : string :=
  match s with
  | EmptyString => EmptyString
  | String c s' => if isspace c then lstrip s' else s
  end.

(** [s.rstrip()] *)
Fixpoint rstrip (s : string) : string :=
  match s with
  | EmptyString => EmptyString
  | String c s' =>
      match rstrip s' with
      | EmptyString => if isspace c then EmptyString else String c EmptyString
      | t => String c t
      end
  end.

(** [s.strip()] *)
Definition strip (s : string) : string := rstrip (lstrip s).

(** [x in xs] for a list of strings *)
Definition contains (xs : list string) (x : string) : bool :=
  existsb (String.eqb x) xs.

(** [s.count(c)] for a one-character [c] *)
Fixpoint count_char (c : ascii) (s : string) : nat :=
  match s with
  | EmptyString => 0
  | String d s' => (if Ascii.eqb d c then 1 else 0) + count_char c s'
  end.

End PyStr.

(** ** Device canonicalisation: [clean_device_name] *)

Module Device.

(** The dictionary literal [abbrev_map]; a Python dict iterates in
    insertion order, so an association list in source order. *)
Definition abbrev_map : list (string * string) :=
  [ ("BL", "Bioness Left") ; ("BR", "Bioness Right") ]%string.

(** The [for abbrev, full_name in abbrev_map.items()] loop: the first
    entry whose test succeeds returns; [None] when the loop falls
    through. *)
Fixpoint first_abbrev (items : list (string * string)) (name : string)
  : option string :=
  match items with
  | [] => None
  | (abbrev, full_name) :: rest =>
      if PyStr.startswith name abbrev
         && (PyStr.len abbrev <? PyStr.len name)
      then
        let suffix := PyStr.slice_from (PyStr.len abbrev) name in
        Some (full_name ++ " " ++ suffix)%string
      else first_abbrev rest name
  end.

Definition clean_device_name (name : string) : string :=
  match first_abbrev abbrev_map name with
  | Some friendly => friendly
  | None => PyStr.replace "_" " " name
  end.

End Device.

(** ** Calendar values: [pandas.Timestamp], [datetime.date], [DateOffset] *)

Module Dates.

Local Open Scope Z_scope.

(** A parsed timestamp: calendar fields and the time of day in
    nanoseconds since midnight. *)
Record datetime : Type := mkDatetime
  { dt_year : Z ; dt_month : Z ; dt_day : Z ; dt_nanos : Z }.

(** A [datetime.date], as produced by [.dt.date]. *)
Record pydate : Type := mkDate
  { d_year : Z ; d_month : Z ; d_day : Z }.

Definition is_leap (y : Z) : bool :=
  ((y mod 4 =? 0) && negb (y mod 100 =? 0)) || (y mod 400 =? 0).

(** [calendar.monthrange(y, m)[1]] *)
Definition days_in_month (y m : Z) : Z :=
  if m =? 2 then (if is_leap y then 29 else 28)
  else if (m =? 4) || (m =? 6) || (m =? 9) || (m =? 11) then 30
  else 31.

Definition valid (d : datetime) : Prop :=
  1 <= dt_month d <= 12 /\
  1 <= dt_day d <= days_in_month (dt_year d) (dt_month d) /\
  0 <= dt_nanos d < 86400000000000.

(** [ts + pd.DateOffset(years=n)]: the year moves by [n], the month and
    the time of day are kept, and the day is clipped to the length of the
    month in the new year (dateutil's [relativedelta]). *)
Definition add_years (n : Z) (d : datetime) : datetime :=
  let y := dt_year d + n in
  {| dt_year := y ;
     dt_month := dt_month d ;
     dt_day := Z.min (days_in_month y (dt_month d)) (dt_day d) ;
     dt_nanos := dt_nanos d |}.

Definition month_names : list string :=
  [ "January" ; "February" ; "March" ; "April" ; "May" ; "June" ;
    "July" ; "August" ; "September" ; "October" ; "November" ;
    "December" ]%string.

(** [ts.strftime('%B')], in the C / English locale *)
Definition strftime_B (d : datetime) : string :=
  nth (Z.to_nat (dt_month d - 1)) month_names ""%string.

(** [ts.month] *)
Definition month_of (d : datetime) : Z := dt_month d.

(** [ts.date()]: the time of day is dropped. *)
Definition date_of (d : datetime) : pydate :=
  {| d_year := dt_year d ; d_month := dt_month d ; d_day := dt_day d |}.

(** [a <= b] on [datetime.date]: lexicographic on year, month, day. *)
Definition date_leb (a b : pydate) : bool :=
  (d_year a <? d_year b)
  || ((d_year a =? d_year b)
      && ((d_month a <? d_month b)
          || ((d_month a =? d_month b) && (d_day a <=? d_day b)))).

End Dates.

(** ** Data frames *)

Module Frame.

Import Dates.

(** One session record: the cells of the columns the script reads. *)
Record row : Type := mkRow
  { date : datetime ;
    month : string ;
    month_num : Z ;
    game : string ;
    device : string ;
    area : string ;
    duration_minutes : Q }.

(** [columns] is [df.columns]; a field of [row] is readable through
    [df[label]] only when its label is among them. *)
Record DataFrame : Type := mkFrame
  { columns : list string ;
    rows : list row }.

(** [df[label] = ...]: an existing column is overwritten in place, a new
    one is appended. *)
Definition set_column (label : string) (cols : list string) : list string :=
  if PyStr.contains cols label then cols else cols ++ [label].

(** [df.empty] *)
Definition empty (rs : list row) : bool :=
  match rs with [] => true | _ :: _ => false end.

End Frame.

(** ** The loader: [load_data] *)

Module Loader.

Import Dates Frame.

(** [df.columns.str.lower().str.strip()] *)
Definition normalize_columns (cols : list string) : list string :=
  map (fun c => PyStr.strip (PyStr.lower c)) cols.

(** Lines 18-24 on one row: the one-year shift, then [month] and
    [month_num] read from the shifted value. *)
Definition shift_row (r : row) : row :=
  let d := add_years 1 (date r) in
  {| date := d ;
     month := strftime_B d ;
     month_num := month_of d ;
     game := game r ;
     device := device r ;
     area := area r ;
     duration_minutes := duration_minutes r |}.

(** Line 42 on one row. *)
Definition clean_row (r : row) : row :=
  {| date := date r ;
     month := month r ;
     month_num := month_num r ;
     game := game r ;
     device := Device.clean_device_name (device r) ;
     area := area r ;
     duration_minutes := duration_minutes r |}.

(** [load_data(file)], where [file] stands for what [pd.read_excel]
    returns. *)
Definition load_data (file : DataFrame) : DataFrame :=
  let df := {| columns := normalize_columns (columns file) ;
               rows := rows file |} in
  let df :=
    if PyStr.contains (columns df) "date"
    then {| columns :=
              set_column "month_num" (set_column "month" (columns df)) ;
            rows := map shift_row (rows df) |}
    else df in
  let df :=
    if PyStr.contains (columns df) "device"
    then {| columns := columns df ; rows := map clean_row (rows df) |}
    else df in
  df.

End Loader.

(** ** The filter: [mask] and [filtered_df] *)

Module Filter.

Import Dates Frame.

(** What the sidebar widgets return in one render. *)
Record constraints : Type := mkConstraints
  { start_date : pydate ;
    end_date : pydate ;
    selected_game : list string ;
    selected_device : list string ;
    selected_area : list string }.

(** [Series.isin(values)] on one cell *)
Definition isin (values : list string) (x : string) : bool :=
  PyStr.contains values x.

(** The boolean [mask] of lines 92-98, on one row. *)
Definition mask (c : constraints) (r : row) : bool :=
  date_leb (start_date c) (date_of (date r))
  && date_leb (date_of (date r)) (end_date c)
  && isin (selected_game c) (game r)
  && isin (selected_device c) (device r)
  && isin (selected_area c) (area r).

(** [df[mask]] *)
Definition filtered_df (c : constraints) (rs : list row) : list row :=
  filter (mask c) rs.

End Filter.

(** ** Series operations of pandas used by the aggregations *)

Module Series.

(** A float64 result: a number, or the [nan] pandas returns where a
    reduction is undefined. *)
Inductive pyfloat : Type :=
| Finite (q : Q)
| NaN
| Inf (negative : bool).

Section Generic.

Context {A : Type}.
Variable eqb : A -> A -> bool.
Variable leb : A -> A -> bool.

(** Number of cells equal to [x]. *)
Definition count (x : A) (xs : list A) : nat :=
  List.length (filter (eqb x) xs).

(** [Series.unique()]: the distinct values in order of first
    appearance, which is also the key order of the hash table behind
    [mode] and [value_counts]. *)
Fixpoint unique (xs : list A) : list A :=
  match xs with
  | [] => []
  | x :: t => x :: filter (fun y => negb (eqb x y)) (unique t)
  end.

(** Ascending sort by [leb], keeping the order of equal keys. *)
Fixpoint insert (x : A) (l : list A) : list A :=
  match l with
  | [] => [x]
  | y :: t => if leb x y then x :: l else y :: insert x t
  end.

Fixpoint sort (l : list A) : list A :=
  match l with
  | [] => []
  | x :: t => insert x (sort t)
  end.

End Generic.

(** *** Rounding to binary64 *)

(** The nearest integer, ties to the even one. *)
Definition nearest_even (q : Q) : Z :=
  let f := Qfloor q in
  match Qcompare (q - inject_Z f) (1 # 2) with
  | Lt => f
  | Gt => (f + 1)%Z
  | Eq => if Z.even f then f else (f + 1)%Z
  end.

(** [2^k] for an integer [k] of either sign. *)
Definition pow2 (k : Z) : Q :=
  if (0 <=? k)%Z then inject_Z (2 ^ k) else (1 # Z.to_pos (2 ^ (- k)))%Q.

(** The integer part of the binary logarithm of a positive rational. *)
Definition ilog2 (a : Q) : Z :=
  let e0 := (Z.log2 (Qnum a) - Z.log2 (Zpos (Qden a)))%Z in
  if Qle_bool (pow2 e0) a then e0 else (e0 - 1)%Z.

(** The binary64 value nearest to a rational, ties to the even
    significand: 53 significant bits, least exponent [-1074] (the
    subnormal step), and infinity from [2^1024] on.  This is what a
    float64 division returns for the exact quotient of its operands. *)
Definition fl64 (q : Q) : pyfloat :=
  if Qeq_bool q 0 then Finite 0%Q
  else
    let a := Qabs q in
    let p := Z.max (ilog2 a - 52) (-1074) in
    let m := nearest_even (a / pow2 p)%Q in
    if (0 <=? p)%Z && (2 ^ 1024 <=? m * 2 ^ p)%Z
    then Inf (if Qlt_le_dec q 0 then true else false)
    else
      Finite
        (Qred ((if Qlt_le_dec q 0 then inject_Z (- m) else inject_Z m)
               * pow2 p)%Q).

(** [Series.sum()]: the exact total of the cells.  It is the computed
    total when the cells are integers whose absolute values add up to
    less than [2^53]; a larger int64 total wraps and a float64 total that
    needs more than 53 bits depends on the order of the additions. *)
Definition sum (xs : list Q) : Q :=
  fold_right Qplus 0%Q xs.

(** [Series.mean()]: [nan] on an empty series, otherwise the float64
    quotient of the total by the number of cells. *)
Definition mean (xs : list Q) : pyfloat :=
  match xs with
  | [] => NaN
  | _ :: _ => fl64 (sum xs / inject_Z (Z.of_nat (List.length xs)))%Q
  end.

(** The largest count among the keys. *)
Definition max_count (xs : list string) : nat :=
  fold_right Nat.max 0 (map (fun k => count String.eqb k xs) xs).

(** [Series.mode()]: the values of maximal frequency, sorted
    ascending. *)
Definition mode (xs : list string) : list string :=
  sort String.leb
    (filter (fun k => count String.eqb k xs =? max_count xs)
       (unique String.eqb xs)).

(** [Series.value_counts()]: one [(value, count)] pair per distinct
    value, most frequent first. *)
Definition value_counts (xs : list string) : list (string * nat) :=
  sort (fun a b => snd b <=? snd a)
    (map (fun k => (k, count String.eqb k xs)) (unique String.eqb xs)).

End Series.

(** ** The aggregations of the KPI and chart sections *)

Module Aggregator.

Import Dates Frame Series.

Inductive exception : Type :=
| KeyError (label : string)
| ValueError.

Definition total_sessions (fd : list row) : nat := List.length fd.

Definition total_duration (fd : list row) : Q :=
  Series.sum (map duration_minutes fd).

Definition avg_duration (fd : list row) : pyfloat :=
  Series.mean (map duration_minutes fd).

(** [s.mode()[0]]: label [0] of the result, a [KeyError] when the result
    is empty. *)
Definition mode_first (xs : list string) : string + exception :=
  match Series.mode xs with
  | m :: _ => inl m
  | [] => inr (KeyError "0")
  end.

(** Lines 110-115. *)
Definition top_game (fd : list row) : string + exception :=
  if negb (Frame.empty fd) then mode_first (map game fd) else inl "N/A"%string.

Definition top_device (fd : list row) : string + exception :=
  if negb (Frame.empty fd) then mode_first (map device fd) else inl "N/A"%string.

(** One row of [monthly_dur]. *)
Record monthly : Type := mkMonthly
  { m_month_num : Z ;
    m_month : string ;
    m_duration : pyfloat }.

Definition key_eqb (a b : Z * string) : bool :=
  (fst a =? fst b)%Z && String.eqb (snd a) (snd b).

(** Order of group keys under [groupby(..., sort=True)]: tuples compare
    lexicographically. *)
Definition key_leb (a b : Z * string) : bool :=
  (fst a <? fst b)%Z || ((fst a =? fst b)%Z && String.leb (snd a) (snd b)).

Definition group_key (r : row) : Z * string := (month_num r, month r).

(** [filtered_df.groupby(['month_num', 'month'])['duration_minutes']
    .mean().reset_index()] *)
Definition groupby_mean (fd : list row) : list monthly :=
  map (fun k =>
         {| m_month_num := fst k ;
            m_month := snd k ;
            m_duration :=
              Series.mean
                (map duration_minutes
                   (filter (fun r => key_eqb k (group_key r)) fd)) |})
    (Series.sort key_leb (Series.unique key_eqb (map group_key fd))).

(** Lines 134-135. *)
Definition monthly_dur (fd : list row) : list monthly :=
  Series.sort (fun a b => (m_month_num a <=? m_month_num b)%Z)
    (groupby_mean fd).

(** Line 148 and line 156. *)
Definition game_counts (fd : list row) : list (string * nat) :=
  Series.value_counts (map game fd).

Definition device_counts (fd : list row) : list (string * nat) :=
  Series.value_counts (map device fd).

End Aggregator.

(** ** The script: widgets, [st.stop] and the render pass *)

Module Script.

Import Dates Frame Series Aggregator.

(** *** Number formatting of the KPI tiles *)

(** Rounding to an integer, ties to even. *)
Definition round_half_even (q : Q) : Z :=
  let f := Qfloor q in
  match Qcompare (q - inject_Z f) (1 # 2) with
  | Lt => f
  | Gt => (f + 1)%Z
  | Eq => if Z.even f then f else (f + 1)%Z
  end.

Definition digits (n : Z) : string :=
  NilZero.string_of_uint (N.to_uint (Z.to_N n)).

(** Thousands separators, working from the least significant digit. *)
Fixpoint commas_rev (l : list ascii) (k : nat) : list ascii :=
  match l with
  | [] => []
  | c :: t =>
      match k with
      | 3 => ","%char :: c :: commas_rev t 1
      | _ => c :: commas_rev t (S k)
      end
  end.

Definition group_thousands (s : string) : string :=
  string_of_list_ascii
    (rev (commas_rev (rev (list_ascii_of_string s)) 0)).

(** [f"{x:.1f}"], and [f"{x:,.1f}"] when [grouping] is set: the exact
    value of the float, rounded to one decimal, ties to even. *)
Definition format_1f (grouping : bool) (x : pyfloat) : string :=
  match x with
  | NaN => "nan"
  | Inf negative => if negative then "-inf" else "inf"
  | Finite q =>
      let n := Z.abs (round_half_even (q * inject_Z 10)) in
      let int_part := digits (n / 10) in
      ((if Qlt_le_dec q 0 then "-" else "")
       ++ (if grouping then group_thousands int_part else int_part)
       ++ "." ++ digits (n mod 10))%string
  end.

(** *** Effects *)

(** What a render pass puts on the page, in order.  Calls that only lay
    the page out (column containers, rules, the expander) are left out,
    and so is the emoji that opens the text of the [st.info] call.  The
    input widgets (radio, uploader, date range, multiselects) are the
    inputs of the pass and are not listed either. *)
Inductive widget : Type :=
| SidebarHeader (text : string)
| Title (text : string)
| Error (text : string)
| Info (text : string)
| Subheader (text : string)
| Metric (label value : string)
| LineChart (title : string) (data : list monthly)
| PieChart (title : string) (data : list (string * nat))
| BarChart (title : string) (data : list (string * nat))
| Dataframe (data : list row).

(** Why a pass ended before its last statement. *)
Inductive halt : Type :=
| Stop
| Raise (e : exception).

(** A statement block: the widgets it emitted, and its value or the
    reason it halted. *)
Definition script (A : Type) : Type := (list widget * (A + halt))%type.

Definition ret {A : Type} (a : A) : script A := ([], inl a).

Definition bind {A B : Type} (m : script A) (f : A -> script B) : script B :=
  match m with
  | (ws, inl a) => let (ws', r) := f a in (ws ++ ws', r)
  | (ws, inr h) => (ws, inr h)
  end.

Notation "x <- m ;; k" := (bind m (fun x => k))
  (at level 61, m at next level, right associativity).
Notation "m ;;; k" := (bind m (fun _ => k))
  (at level 61, right associativity).

Definition emit (w : widget) : script unit := ([w], inl tt).

(** [st.stop()] *)
Definition st_stop {A : Type} : script A := ([], inr Stop).

Definition lift {A : Type} (r : A + exception) : script A :=
  match r with
  | inl a => ret a
  | inr e => ([], inr (Raise e))
  end.

(** [df[label]], reading the cells through [field]. *)
Definition getitem {A : Type} (df : DataFrame) (label : string)
  (field : row -> A) : script (list A) :=
  if PyStr.contains (columns df) label
  then ret (map field (rows df))
  else lift (inr (KeyError label)).

(** *** The render pass *)

Inductive data_source_choice : Type :=
| DefaultFile
| UploadCustomFile.

Definition required_cols : list string :=
  [ "date" ; "duration_minutes" ]%string.

Definition missing_columns_message : string :=
  "Uploaded file is missing one of these required columns: ['date', 'duration_minutes']".

(** Lines 64-69.  [default_file] is the content of [usage_metrics.xlsx],
    [uploaded_file] the content of the upload when there is one. *)
Definition file_to_load (data_source : data_source_choice)
  (default_file : DataFrame) (uploaded_file : option DataFrame)
  : option DataFrame :=
  match data_source with
  | DefaultFile => Some default_file
  | UploadCustomFile => uploaded_file
  end.

(** One run of the script; [ui] is what the filter widgets return, the
    date widget having returned a complete range.  On a frame without
    rows [min_date] and [max_date] are [NaT] and the date widget raises
    [ValueError] (lines 82-84). *)
Definition main (data_source : data_source_choice)
  (default_file : DataFrame) (uploaded_file : option DataFrame)
  (ui : Filter.constraints) : script unit :=
  emit (SidebarHeader "Data Source") ;;;
  emit (SidebarHeader "Filter Data") ;;;
  emit (Title "LUMOPlay Usage & Metrics Dashboard") ;;;
  match file_to_load data_source default_file uploaded_file with
  | Some file =>
      let df := Loader.load_data file in
      (if negb (forallb (PyStr.contains (columns df)) required_cols)
       then emit (Error missing_columns_message) ;;; st_stop
       else ret tt) ;;;
      _ <- getitem df "date" date ;;
      (if Frame.empty (rows df) then lift (inr ValueError) else ret tt) ;;;
      _ <- getitem df "game" game ;;
      _ <- getitem df "device" device ;;
      _ <- getitem df "area" area ;;
      let filtered_df := Filter.filtered_df ui (rows df) in
      emit (Subheader "Key Performance Indicators") ;;;
      let total_duration := Aggregator.total_duration filtered_df in
      let avg_duration := Aggregator.avg_duration filtered_df in
      top_game <- lift (Aggregator.top_game filtered_df) ;;
      top_device <- lift (Aggregator.top_device filtered_df) ;;
      emit (Metric "Total Play Time (Hrs)"
              (format_1f true (fl64 (total_duration / inject_Z 60)))) ;;;
      emit (Metric "Avg Session (Mins)" (format_1f false avg_duration)) ;;;
      emit (Metric "Top Game" top_game) ;;;
      emit (Metric "Top Device" top_device) ;;;
      emit (Subheader "Usage Trends") ;;;
      emit (LineChart "Average Session Duration per Month (Minutes)"
              (Aggregator.monthly_dur filtered_df)) ;;;
      emit (Subheader "Detailed Breakdown") ;;;
      emit (PieChart "Share of Sessions by Game"
              (Aggregator.game_counts filtered_df)) ;;;
      emit (BarChart "Sessions by Device Type"
              (Aggregator.device_counts filtered_df)) ;;;
      emit (Dataframe filtered_df)
  | None =>
      emit (Info "Upload your Excel file to begin.")
  end.

End Script.

(** ** Vocabulary of the statements, and sample tables *)

Module Spec.

Import Dates Frame Series Aggregator Script.

(** Day-granularity order on calendar triples. *)
Definition day_le (y1 m1 d1 y2 m2 d2 : Z) : Prop :=
  (y1 < y2 \/ (y1 = y2 /\ (m1 < m2 \/ (m1 = m2 /\ d1 <= d2))))%Z.

(** [lo <= date(r) <= hi], reading only the calendar fields of the
    row's timestamp. *)
Definition in_day_range (lo hi : pydate) (r : row) : Prop :=
  day_le (d_year lo) (d_month lo) (d_day lo)
    (dt_year (date r)) (dt_month (date r)) (dt_day (date r))
  /\ day_le (dt_year (date r)) (dt_month (date r)) (dt_day (date r))
       (d_year hi) (d_month hi) (d_day hi).

(** What one loaded row holds, given the sheet's row: the moved date,
    the columns derived from it, and, for a calendar-valid date, the
    calendar fields of the moved date. *)
Definition shifted (r r' : row) : Prop :=
  date r' = add_years 1 (date r)
  /\ month r' = strftime_B (date r')
  /\ month_num r' = month_of (date r')
  /\ (valid (date r) ->
      valid (date r')
      /\ dt_year (date r') = (dt_year (date r) + 1)%Z
      /\ dt_month (date r') = dt_month (date r)
      /\ dt_day (date r')
         = (if ((dt_month (date r) =? 2) && (dt_day (date r) =? 29))%Z
            then 28%Z else dt_day (date r))
      /\ dt_nanos (date r') = dt_nanos (date r)
      /\ (1 <= month_num r' <= 12)%Z
      /\ nth_error month_names (Z.to_nat (month_num r' - 1))
         = Some (month r')).

(** Number of occurrences of a label in a column. *)
Definition occurrences (xs : list string) (x : string) : nat :=
  count_occ string_dec xs x.

(** [g] is a most frequent label of the column, and the least one, in
    the byte-wise lexicographic order of strings, among the labels of
    that frequency. *)
Definition least_most_frequent (xs : list string) (g : string) : Prop :=
  In g xs
  /\ (forall h, occurrences xs h <= occurrences xs g)
  /\ (forall h, occurrences xs h = occurrences xs g ->
                String.leb g h = true).

(** The rows of the group [(n, m)] of a table. *)
Definition group_rows (n : Z) (m : string) (fd : list row) : list row :=
  filter (fun r => (month_num r =? n)%Z && String.eqb (month r) m) fd.


(** Widgets that show a filtered table or something computed from it. *)
Definition shows_results (w : widget) : bool :=
  match w with
  | Metric _ _ | LineChart _ _ | PieChart _ _ | BarChart _ _
  | Dataframe _ | Subheader _ => true
  | SidebarHeader _ | Title _ | Error _ | Info _ => false
  end.

(** The character map of the underscore rule. *)
Definition underscore_to_space (c : ascii) : ascii :=
  if ascii_dec c "_" then " "%char else c.

(** A session row with the given date, labels and duration; [month] and
    [month_num] are filled by the loader. *)
Definition session (y m d : Z) (g dv a : string) (mins : Z) : row :=
  {| date := mkDatetime y m d 0 ;
     month := "" ;
     month_num := 0 ;
     game := g ;
     device := dv ;
     area := a ;
     duration_minutes := inject_Z mins |}.

Definition sheet (rs : list row) : DataFrame :=
  {| columns := [ "Date" ; "Game" ; "Start_Time" ; "End_Time" ;
                  "Duration_Minutes" ; "Device" ; "Area" ]%string ;
     rows := rs |}.

(** Games [A, B, A, B] and [B, A, B, A] in row order. *)
Definition abab : list row :=
  [ session 2025 1 1 "A" "d" "x" 10 ; session 2025 1 2 "B" "d" "x" 10 ;
    session 2025 1 3 "A" "d" "x" 10 ; session 2025 1 4 "B" "d" "x" 10 ].


(** Rows dated in December, January and March, in that order. *)
Definition dec_jan_mar : DataFrame :=
  sheet [ session 2024 12 5 "A" "BL1" "x" 30 ;
          session 2024 1 7 "B" "BR2" "x" 60 ;
          session 2024 3 10 "A" "BL1" "y" 90 ].

(** A sheet without a [date] column. *)
Definition no_date_sheet : DataFrame :=
  {| columns := [ "Game" ; "Duration_Minutes" ; "Device" ; "Area" ]%string ;
     rows := [ session 2024 3 10 "A" "BL1" "y" 90 ] |}.

(** A wide date range with every multiselect emptied. *)
Definition none_selected : Filter.constraints :=
  Filter.mkConstraints (mkDate 1 1 1) (mkDate 9999 12 31) [] [] [].

End Spec.

(** ** The sidebar defaults: lines 82-89 *)

Module Sidebar.

Import Dates Frame Series.

Local Open Scope Z_scope.

(** [a <= b] on timestamps: calendar fields first, then the time of
    day. *)
Definition ts_leb (a b : datetime) : bool :=
  (dt_year a <? dt_year b)
  || ((dt_year a =? dt_year b)
      && ((dt_month a <? dt_month b)
          || ((dt_month a =? dt_month b)
              && ((dt_day a <? dt_day b)
                  || ((dt_day a =? dt_day b)
                      && (dt_nanos a <=? dt_nanos b)))))).

Definition ts_min (a b : datetime) : datetime :=
  if ts_leb a b then a else b.

Definition ts_max (a b : datetime) : datetime :=
  if ts_leb a b then b else a.

(** [Series.min()] and [Series.max()] of a timestamp column; [None] is
    the [NaT] of an empty column. *)
Definition series_min (xs : list datetime) : option datetime :=
  match xs with
  | [] => None
  | x :: t => Some (fold_left ts_min t x)
  end.

Definition series_max (xs : list datetime) : option datetime :=
  match xs with
  | [] => None
  | x :: t => Some (fold_left ts_max t x)
  end.

(** What the widgets return while the user has not touched them: the
    date range [[min_date, max_date]] as dates, and for each multiselect
    its [default], the distinct values of the column.  On an empty frame
    the range has no default. *)
Definition default_constraints (rs : list row) : option Filter.constraints :=
  match series_min (map date rs), series_max (map date rs) with
  | Some min_date, Some max_date =>
      Some {| Filter.start_date := date_of min_date ;
              Filter.end_date := date_of max_date ;
              Filter.selected_game := unique String.eqb (map game rs) ;
              Filter.selected_device := unique String.eqb (map device rs) ;
              Filter.selected_area := unique String.eqb (map area rs) |}
  | _, _ => None
  end.

End Sidebar.

(** ** Blank Game cells *)

Module Blank.

Import Dates Series Aggregator.

(** A row of a loaded frame whose Game cell may be blank.  [read_excel]
    reads an empty cell of a text column as NaN, here [None], and
    [load_data] never looks at the Game column, so the cell reaches the
    filter and the aggregations as it was read.  The device cell is a
    string: [clean_device_name] has been applied to it. *)
Record row : Type := mkRow
  { date : datetime ;
    month : string ;
    month_num : Z ;
    game : option string ;
    device : string ;
    area : string ;
    duration_minutes : Q }.

(** A row without a blank cell, seen as such a row. *)
Definition of_row (r : Frame.row) : row :=
  {| date := Frame.date r ;
     month := Frame.month r ;
     month_num := Frame.month_num r ;
     game := Some (Frame.game r) ;
     device := Frame.device r ;
     area := Frame.area r ;
     duration_minutes := Frame.duration_minutes r |}.

(** The cells that are not missing, in order: what [mode()] and
    [value_counts()] keep under their default [dropna=True]. *)
Fixpoint dropna (cells : list (option string)) : list string :=
  match cells with
  | [] => []
  | Some x :: t => x :: dropna t
  | None :: t => dropna t
  end.

Definition cell_eqb (a b : option string) : bool :=
  match a, b with
  | Some x, Some y => String.eqb x y
  | None, None => true
  | _, _ => false
  end.

(** [Series.isin(values)] on one cell: a missing cell matches a missing
    value. *)
Definition isin (values : list (option string)) (x : option string) : bool :=
  existsb (cell_eqb x) values.

(** What the sidebar widgets return; the options of the Game multiselect
    are the values of [unique()], the missing one included. *)
Record constraints : Type := mkConstraints
  { start_date : pydate ;
    end_date : pydate ;
    selected_game : list (option string) ;
    selected_device : list string ;
    selected_area : list string }.

(** Lines 92-99. *)
Definition mask (c : constraints) (r : row) : bool :=
  date_leb (start_date c) (date_of (date r))
  && date_leb (date_of (date r)) (end_date c)
  && isin (selected_game c) (game r)
  && Filter.isin (selected_device c) (device r)
  && Filter.isin (selected_area c) (area r).

Definition filtered_df (c : constraints) (rs : list row) : list row :=
  filter (mask c) rs.

(** Line 105. *)
Definition total_sessions (fd : list row) : nat := List.length fd.

(** Lines 110-115. *)
Definition top_game (fd : list row) : string + exception :=
  match fd with
  | [] => inl "N/A"%string
  | _ :: _ => mode_first (dropna (map game fd))
  end.

(** Line 148 and line 156. *)
Definition game_counts (fd : list row) : list (string * nat) :=
  Series.value_counts (dropna (map game fd)).

Definition device_counts (fd : list row) : list (string * nat) :=
  Series.value_counts (map device fd).

(** The rows whose Game cell is not blank. *)
Definition with_game (fd : list row) : list row :=
  filter (fun r => match game r with Some _ => true | None => false end) fd.

(** Two sessions of one day, the first with a blank Game cell. *)
Definition one_blank : list row :=
  [ {| date := mkDatetime 2025 3 10 0 ; month := "March" ;
       month_num := 3 ; game := None ; device := "Bioness Left 1" ;
       area := "x" ; duration_minutes := inject_Z 30 |} ;
    {| date := mkDatetime 2025 3 10 0 ; month := "March" ;
       month_num := 3 ; game := Some "A"%string ;
       device := "Bioness Left 1" ; area := "x" ;
       duration_minutes := inject_Z 60 |} ].

(** A session whose Game cell is blank. *)
Definition all_blank : list row :=
  [ {| date := mkDatetime 2025 3 10 0 ; month := "March" ;
       month_num := 3 ; game := None ; device := "Bioness Left 1" ;
       area := "x" ; duration_minutes := inject_Z 30 |} ].

(** The widgets left untouched on [one_blank]. *)
Definition untouched : constraints :=
  {| start_date := mkDate 2025 3 10 ;
     end_date := mkDate 2025 3 10 ;
     selected_game := [ None ; Some "A"%string ] ;
     selected_device := [ "Bioness Left 1"%string ] ;
     selected_area := [ "x"%string ] |}.

End Blank.

(** ** Further vocabulary of the statements *)

Module Vocabulary.

Import Dates Frame Series Aggregator Script.

(** A name still carrying an abbreviation: [BL] or [BR] followed by at
    least one character. *)
Definition abbreviated (name : string) : Prop :=
  exists suffix : string,
    suffix <> ""%string
    /\ (name = ("BL" ++ suffix)%string \/ name = ("BR" ++ suffix)%string).

(** An ASCII capital letter. *)
Definition is_upper (c : ascii) : bool :=
  (65 <=? nat_of_ascii c) && (nat_of_ascii c <=? 90).

Fixpoint all_chars (p : ascii -> bool) (s : string) : bool :=
  match s with
  | EmptyString => true
  | String c s' => p c && all_chars p s'
  end.

Definition first_char (s : string) : option ascii :=
  match s with
  | EmptyString => None
  | String c _ => Some c
  end.

Fixpoint last_char (s : string) : option ascii :=
  match s with
  | EmptyString => None
  | String c EmptyString => Some c
  | String _ s' => last_char s'
  end.

Definition not_space (o : option ascii) : Prop :=
  match o with
  | Some c => PyStr.isspace c = false
  | None => True
  end.

(** No capital letter, and no white space at either end. *)
Definition normalized (label : string) : Prop :=
  all_chars (fun c => negb (is_upper c)) label = true
  /\ not_space (first_char label)
  /\ not_space (last_char label).

(** Day order on timestamps, the time of day left aside. *)
Definition day_le_ts (a b : datetime) : Prop :=
  Spec.day_le (dt_year a) (dt_month a) (dt_day a)
    (dt_year b) (dt_month b) (dt_day b).

(** Strict day order on dates. *)
Definition day_lt (a b : pydate) : Prop :=
  (d_year a < d_year b
   \/ (d_year a = d_year b
       /\ (d_month a < d_month b
           \/ (d_month a = d_month b /\ d_day a < d_day b))))%Z.

(** [c'] allows whatever [c] allows. *)
Definition wider (c c' : Filter.constraints) : Prop :=
  Dates.date_leb (Filter.start_date c') (Filter.start_date c) = true
  /\ Dates.date_leb (Filter.end_date c) (Filter.end_date c') = true
  /\ incl (Filter.selected_game c) (Filter.selected_game c')
  /\ incl (Filter.selected_device c) (Filter.selected_device c')
  /\ incl (Filter.selected_area c) (Filter.selected_area c').

(** The page up to the title. *)
Definition page_head : list widget :=
  [ SidebarHeader "Data Source" ; SidebarHeader "Filter Data" ;
    Title "LUMOPlay Usage & Metrics Dashboard" ].

(** A sheet with the two required columns but no [game] column. *)
Definition no_game_sheet : DataFrame :=
  {| columns := [ "Date" ; "Duration_Minutes" ; "Device" ; "Area" ]%string ;
     rows := [ Spec.session 2024 3 10 "A" "BL1" "y" 90 ] |}.

(** The month name that goes with a month number. *)
Definition month_label (n : Z) : string :=
  nth (Z.to_nat (n - 1)) Dates.month_names ""%string.

(** The order of [value_counts]: larger counts first. *)
Definition count_geb (a b : string * nat) : bool := snd b <=? snd a.

(** The whole of 2025, with the labels of [Spec.dec_jan_mar] once
    loaded. *)
Definition all_of_2025 : Filter.constraints :=
  Filter.mkConstraints (mkDate 2025 1 1) (mkDate 2025 12 31)
    [ "A" ; "B" ]%string
    [ "Bioness Left 1" ; "Bioness Right 2" ]%string
    [ "x" ; "y" ]%string.

(** The five labels the render pass reads. *)
Definition read_labels : list string :=
  [ "date" ; "duration_minutes" ; "game" ; "device" ; "area" ]%string.

(** Bytes below 128 only. *)
Definition ascii_only (s : string) : bool :=
  all_chars (fun c => nat_of_ascii c <? 128) s.



(** A sheet without a [device] column. *)
Definition no_device_sheet : DataFrame :=
  {| columns := [ "Date" ; "Game" ; "Duration_Minutes" ; "Area" ]%string ;
     rows := [ Spec.session 2024 3 10 "A" "BL1" "y" 90 ] |}.

(** Case analysis over the 256 characters. *)
Ltac each_ascii c :=
  destruct c as [[] [] [] [] [] [] [] []]; reflexivity.

End Vocabulary.

(** ** Facts about the string primitives and [clean_device_name] *)

Module DeviceProps.

Import PyStr Device.
Local Open Scope string_scope.

Lemma startswith_app (p s : string) : startswith (p ++ s) p = true.
Proof.
  unfold startswith. induction p as [|c p IH]; simpl.
  - now destruct s.
  - destruct (ascii_dec c c) as [_|ne]; [exact IH | now elim ne].
Qed.

Lemma startswith_split (p s : string) :
  startswith s p = true -> s = p ++ slice_from (len p) s.
Proof.
  unfold startswith, len. revert s.
  induction p as [|c p IH]; intros s H; simpl in *.
  - reflexivity.
  - destruct s as [|d s]; simpl in H; [discriminate|].
    destruct (ascii_dec c d) as [->|]; [|discriminate].
    simpl. f_equal. now apply IH.
Qed.

Lemma slice_from_app (p s : string) : slice_from (len p) (p ++ s) = s.
Proof. unfold len. induction p; simpl; auto. Qed.

Lemma len_app (p s : string) : len (p ++ s) = len p + len s.
Proof. unfold len. induction p; simpl; auto. Qed.

Lemma len_pos (s : string) : s <> "" -> 0 < len s.
Proof. destruct s; [congruence | simpl; lia]. Qed.

Lemma len_zero_inv (s : string) : len s = 0 -> s = "".
Proof. destruct s; [reflexivity | discriminate]. Qed.

Lemma replace_length (a b : ascii) (s : string) :
  String.length (replace a b s) = String.length s.
Proof. induction s; simpl; auto. Qed.

Lemma replace_get (a b : ascii) (s : string) (i : nat) :
  String.get i (replace a b s)
  = option_map (fun c => if ascii_dec c a then b else c) (String.get i s).
Proof.
  revert i. induction s as [|c s IH]; intros i; simpl.
  - reflexivity.
  - destruct i as [|i]; simpl.
    + destruct (Ascii.eqb_spec c a), (ascii_dec c a); congruence.
    + apply IH.
Qed.

Lemma count_char_app (c : ascii) (s t : string) :
  count_char c (s ++ t) = count_char c s + count_char c t.
Proof. induction s; simpl; lia. Qed.

(** The abbreviation rule on [BL]: the suffix is appended as it is. *)
Lemma clean_BL (suffix : string) :
  suffix <> "" ->
  clean_device_name ("BL" ++ suffix) = "Bioness Left " ++ suffix.
Proof.
  intros Hne. destruct suffix as [|c s]; [congruence|]. reflexivity.
Qed.

Lemma clean_BR (suffix : string) :
  suffix <> "" ->
  clean_device_name ("BR" ++ suffix) = "Bioness Right " ++ suffix.
Proof.
  intros Hne. destruct suffix as [|c s]; [congruence|]. reflexivity.
Qed.

(** When a loop test succeeds, the name is the abbreviation followed by
    a non-empty suffix. *)
Lemma abbrev_test_inv (abbrev name : string) :
  startswith name abbrev && (len abbrev <? len name)%nat = true ->
  exists suffix, suffix <> "" /\ name = abbrev ++ suffix.
Proof.
  intros H. apply andb_true_iff in H as [Hp Hl].
  apply Nat.ltb_lt in Hl.
  exists (slice_from (len abbrev) name). split.
  - intros E. apply startswith_split in Hp. rewrite E in Hp.
    rewrite Hp, len_app in Hl. simpl in Hl. lia.
  - now apply startswith_split.
Qed.

Lemma clean_fallthrough (name : string) :
  (forall suffix, suffix <> "" ->
     name <> "BL" ++ suffix /\ name <> "BR" ++ suffix) ->
  clean_device_name name = replace "_" " " name.
Proof.
  intros H. unfold clean_device_name, abbrev_map, first_abbrev.
  destruct (startswith name "BL" && (len "BL" <? len name)%nat) eqn:E1.
  - apply abbrev_test_inv in E1 as (sfx & Hne & ->).
    now destruct (H sfx Hne) as [H1 _].
  - destruct (startswith name "BR" && (len "BR" <? len name)%nat) eqn:E2.
    + apply abbrev_test_inv in E2 as (sfx & Hne & ->).
      now destruct (H sfx Hne) as [_ H2].
    + reflexivity.
Qed.

(** C3. [clean_device_name] has three cases: a name made of [BL] and a
    non-empty suffix becomes [Bioness Left ] followed by the suffix; one
    made of [BR] and a non-empty suffix becomes [Bioness Right ] followed
    by the suffix; every other name, the bare [BL] and [BR] included,
    keeps its length and has each underscore replaced by a space and every
    other character kept.  [BL1], [BR2], [BL] and [Bioness_Left] map to
    [Bioness Left 1], [Bioness Right 2], [BL] and [Bioness Left]. *)
Theorem clean_device_name_cases :
  (forall name : string,
     (forall suffix, suffix <> "" -> name = "BL" ++ suffix ->
        clean_device_name name = "Bioness Left " ++ suffix)
     /\ (forall suffix, suffix <> "" -> name = "BR" ++ suffix ->
           clean_device_name name = "Bioness Right " ++ suffix)
     /\ ((forall suffix, suffix <> "" ->
            name <> "BL" ++ suffix /\ name <> "BR" ++ suffix) ->
         String.length (clean_device_name name) = String.length name
         /\ forall i, String.get i (clean_device_name name)
                      = option_map Spec.underscore_to_space
                          (String.get i name)))
  /\ clean_device_name "BL1" = "Bioness Left 1"
  /\ clean_device_name "BR2" = "Bioness Right 2"
  /\ clean_device_name "BL" = "BL"
  /\ clean_device_name "BR" = "BR"
  /\ clean_device_name "Bioness_Left" = "Bioness Left".
Proof.
  split; [|repeat split; reflexivity].
  intros name. split; [|split].
  - intros suffix Hne ->. now apply clean_BL.
  - intros suffix Hne ->. now apply clean_BR.
  - intros H. rewrite (clean_fallthrough name H). split.
    + apply replace_length.
    + intros i. apply replace_get.
Qed.

Lemma clean_device_name_cases_witness :
  clean_device_name "BL7" = "Bioness Left 7"
  /\ String.length (clean_device_name "a_b") = 3.
Proof.
  split.
  - apply (proj1 (proj1 clean_device_name_cases "BL7") "7");
      [discriminate | reflexivity].
  - apply (proj2 (proj2 (proj1 clean_device_name_cases "a_b"))).
    intros suffix _. split; discriminate.
Defined.

(** C10. When the abbreviation rule fires, the suffix reaches the output
    unchanged: for a non-empty suffix, [BL] and [BR] followed by it give
    the friendly name, one space and the suffix itself, so the output has
    exactly the underscores of the suffix.  [BL_1] becomes
    [Bioness Left _1], which still contains an underscore. *)
Theorem abbreviation_keeps_suffix_verbatim :
  (forall suffix : string, suffix <> "" ->
     clean_device_name ("BL" ++ suffix) = "Bioness Left " ++ suffix
     /\ clean_device_name ("BR" ++ suffix) = "Bioness Right " ++ suffix
     /\ count_char "_" (clean_device_name ("BL" ++ suffix))
        = count_char "_" suffix
     /\ count_char "_" (clean_device_name ("BR" ++ suffix))
        = count_char "_" suffix)
  /\ clean_device_name "BL_1" = "Bioness Left _1"
  /\ clean_device_name "BL_1" <> "Bioness Left  1"
  /\ clean_device_name "BL_1" <> "Bioness Left 1"
  /\ count_char "_" (clean_device_name "BL_1") = 1.
Proof.
  split; [|repeat split; try reflexivity; discriminate].
  intros suffix Hne.
  rewrite (clean_BL suffix Hne), (clean_BR suffix Hne).
  repeat split; rewrite count_char_app; reflexivity.
Qed.

Lemma abbreviation_keeps_suffix_verbatim_witness :
  clean_device_name ("BR" ++ "_2_b") = "Bioness Right " ++ "_2_b"
  /\ count_char "_" (clean_device_name ("BL" ++ "_2_b")) = 2.
Proof.
  destruct (proj1 abbreviation_keeps_suffix_verbatim "_2_b")
    as (_ & Hr & Hc & _); [discriminate|].
  split; [exact Hr | exact Hc].
Defined.

End DeviceProps.

(** ** Facts about the loader *)

Module LoaderProps.

Import Dates Frame Loader.

Lemma contains_In (xs : list string) (x : string) :
  PyStr.contains xs x = true <-> In x xs.
Proof.
  unfold PyStr.contains. rewrite existsb_exists. split.
  - intros (y & Hy & E). apply String.eqb_eq in E. now subst.
  - intros H. exists x. split; [exact H | apply String.eqb_refl].
Qed.

Lemma contains_false (xs : list string) (x : string) :
  PyStr.contains xs x = false <-> ~ In x xs.
Proof.
  rewrite <- contains_In. destruct (PyStr.contains xs x); split;
    congruence.
Qed.

Lemma in_set_column (label c : string) (cols : list string) :
  In c (set_column label cols) <-> c = label \/ In c cols.
Proof.
  unfold set_column. destruct (PyStr.contains cols label) eqn:E.
  - apply contains_In in E. split; [auto | intros [->|]; auto].
  - rewrite in_app_iff. simpl. intuition.
Qed.

(** The labels of the loaded frame are the normalised labels of the
    sheet, with [month] and [month_num] when [date] is among them. *)
Lemma load_data_columns (file : DataFrame) (c : string) :
  In c (columns (load_data file)) <->
  In c (normalize_columns (columns file))
  \/ (In "date"%string (normalize_columns (columns file))
      /\ (c = "month"%string \/ c = "month_num"%string)).
Proof.
  unfold load_data. cbn [columns rows].
  destruct (PyStr.contains (normalize_columns (columns file)) "date") eqn:D;
    cbn [columns rows].
  - apply contains_In in D.
    assert (In c (set_column "month_num"
                    (set_column "month" (normalize_columns (columns file))))
            <-> In c (normalize_columns (columns file))
                \/ In "date"%string (normalize_columns (columns file))
                   /\ (c = "month"%string \/ c = "month_num"%string)) as E
      by (rewrite !in_set_column; tauto).
    destruct (PyStr.contains _ "device"); exact E.
  - apply contains_false in D.
    destruct (PyStr.contains _ "device"); cbn [columns]; tauto.
Qed.

(** With a [date] column, every loaded row is the shifted row, possibly
    with its device name cleaned afterwards. *)
Lemma load_data_rows_dated (file : DataFrame) :
  In "date"%string (normalize_columns (columns file)) ->
  rows (load_data file) = map shift_row (rows file)
  \/ rows (load_data file) = map clean_row (map shift_row (rows file)).
Proof.
  intros D. apply contains_In in D. unfold load_data. cbn [columns rows].
  rewrite D. cbn [columns rows].
  destruct (PyStr.contains _ "device"); auto.
Qed.

Local Open Scope Z_scope.

Lemma leap_then_next_common (y : Z) :
  is_leap y = true -> is_leap (y + 1) = false.
Proof.
  unfold is_leap. intros H.
  assert (y mod 4 = 0) as H4.
  { apply orb_true_iff in H as [H|H].
    - apply andb_true_iff in H as [H _]. now apply Z.eqb_eq in H.
    - apply Z.eqb_eq in H. Z.to_euclidean_division_equations. lia. }
  assert ((y + 1) mod 4 <> 0) as N4
    by (Z.to_euclidean_division_equations; lia).
  assert ((y + 1) mod 400 <> 0) as N400
    by (Z.to_euclidean_division_equations; lia).
  apply Z.eqb_neq in N4, N400. now rewrite N4, N400.
Qed.

Lemma days_in_month_bounds (y m : Z) : 28 <= days_in_month y m <= 31.
Proof.
  unfold days_in_month.
  destruct (m =? 2); [destruct (is_leap y); lia|].
  destruct ((m =? 4) || (m =? 6) || (m =? 9) || (m =? 11)); lia.
Qed.

Lemma days_in_month_next_year (y m d : Z) :
  1 <= d <= days_in_month y m ->
  Z.min (days_in_month (y + 1) m) d
  = if (m =? 2) && (d =? 29) then 28 else d.
Proof.
  unfold days_in_month. intros H.
  destruct (m =? 2) eqn:M; cbn [andb].
  - destruct (d =? 29) eqn:D.
    + apply Z.eqb_eq in D. subst d.
      destruct (is_leap y) eqn:L; [|lia].
      rewrite (leap_then_next_common y L). reflexivity.
    + apply Z.eqb_neq in D.
      destruct (is_leap y), (is_leap (y + 1)); lia.
  - destruct ((m =? 4) || (m =? 6) || (m =? 9) || (m =? 11)); lia.
Qed.

Lemma add_years_valid (d : datetime) : valid d -> valid (add_years 1 d).
Proof.
  unfold valid, add_years. cbn [dt_year dt_month dt_day dt_nanos].
  intros (Hm & Hd & Hn).
  pose proof (days_in_month_bounds (dt_year d + 1) (dt_month d)).
  repeat split; lia.
Qed.

Lemma strftime_B_nth (d : datetime) :
  1 <= dt_month d <= 12 ->
  nth_error month_names (Z.to_nat (month_of d - 1)) = Some (strftime_B d).
Proof.
  unfold strftime_B, month_of. intros H.
  apply nth_error_nth'. change (List.length month_names) with 12%nat. lia.
Qed.

Lemma shift_row_shifted (r : row) : Spec.shifted r (shift_row r).
Proof.
  unfold Spec.shifted, shift_row. cbn [date month month_num].
  split; [reflexivity|]. split; [reflexivity|]. split; [reflexivity|].
  intros V. pose proof (add_years_valid _ V) as V'.
  split; [exact V'|].
  split; [reflexivity|]. split; [reflexivity|].
  split; [cbn; apply days_in_month_next_year; apply V|].
  split; [reflexivity|].
  split; [apply V'|].
  apply strftime_B_nth, V'.
Qed.

Lemma clean_row_shifted (r r' : row) :
  Spec.shifted r r' -> Spec.shifted r (clean_row r').
Proof. unfold Spec.shifted, clean_row. cbn [date month month_num]. trivial. Qed.

(** C4. When the sheet has a [date] column, every row of the loaded frame
    carries the date of the sheet's row moved by [DateOffset(years=1)],
    and its [month] and [month_num] are read from that moved date.  For a
    calendar-valid date the year grows by exactly one, the month and the
    time of day are kept, the day is kept (29 February becomes
    28 February), [month_num] lies in 1..12 and [month] is the full
    English name at that index.  A row dated 2024-03-10 is loaded as
    2025-03-10, [March], 3. *)
Theorem load_data_shifts_one_year :
  (forall file : DataFrame,
     In "date"%string (normalize_columns (columns file)) ->
     Forall2 Spec.shifted (rows file) (rows (load_data file)))
  /\ map (fun r => (date r, month r, month_num r))
       (rows (load_data (Spec.sheet [Spec.session 2024 3 10 "A" "BL1" "y" 90])))
     = [ (mkDatetime 2025 3 10 0, "March"%string, 3) ].
Proof.
  split; [|reflexivity].
  intros file D.
  destruct (load_data_rows_dated file D) as [-> | ->];
    induction (rows file) as [|r rs IH]; simpl; constructor;
    auto using shift_row_shifted, clean_row_shifted.
Qed.

Lemma load_data_shifts_one_year_witness :
  Forall2 Spec.shifted (rows Spec.dec_jan_mar) (rows (load_data Spec.dec_jan_mar)).
Proof.
  apply (proj1 load_data_shifts_one_year Spec.dec_jan_mar).
  vm_compute. tauto.
Defined.

End LoaderProps.

(** ** Facts about the filter *)

Module FilterProps.

Import Dates Frame Filter.

Lemma date_leb_day_le (a b : pydate) :
  date_leb a b = true <->
  Spec.day_le (d_year a) (d_month a) (d_day a)
    (d_year b) (d_month b) (d_day b).
Proof.
  unfold date_leb, Spec.day_le.
  rewrite !orb_true_iff, !andb_true_iff, !orb_true_iff, !andb_true_iff.
  rewrite !Z.ltb_lt, !Z.eqb_eq, Z.leb_le. reflexivity.
Qed.

Lemma isin_In (values : list string) (x : string) :
  isin values x = true <-> In x values.
Proof. apply LoaderProps.contains_In. Qed.

Lemma mask_true (c : constraints) (r : row) :
  mask c r = true <->
  Spec.in_day_range (start_date c) (end_date c) r
  /\ In (game r) (selected_game c)
  /\ In (device r) (selected_device c)
  /\ In (area r) (selected_area c).
Proof.
  unfold mask, Spec.in_day_range.
  rewrite !andb_true_iff, !date_leb_day_le, !isin_In.
  cbn [date_of d_year d_month d_day]. tauto.
Qed.

Lemma mask_empty_selection (c : constraints) (r : row) :
  selected_game c = [] \/ selected_device c = [] \/ selected_area c = [] ->
  mask c r = false.
Proof.
  intros H. destruct (mask c r) eqn:E; [|reflexivity].
  apply mask_true in E as (_ & Hg & Hd & Ha).
  destruct H as [H | [H | H]]; rewrite H in *; contradiction.
Qed.

Lemma filter_all_false {A : Type} (f : A -> bool) (l : list A) :
  (forall x, f x = false) -> filter f l = [].
Proof.
  intros H. induction l as [|x l IH]; simpl; [reflexivity|].
  now rewrite H.
Qed.

Lemma filter_idempotent {A : Type} (f : A -> bool) (l : list A) :
  filter f (filter f l) = filter f l.
Proof.
  induction l as [|x l IH]; simpl; [reflexivity|].
  destruct (f x) eqn:E; simpl; [rewrite E, IH|]; auto.
Qed.

(** C5. A row is in the filtered table exactly when it is a row of the
    table whose date, read at day granularity (year, month, day; the time
    of day is not consulted), lies between the start and end dates
    inclusive, and whose game, device and area are each among the
    selected values.  With an empty selection for any of the three
    fields the filtered table has no rows. *)
Theorem filtered_df_membership (c : constraints) (rs : list row) :
  (forall r : row,
     In r (filtered_df c rs) <->
     In r rs
     /\ Spec.in_day_range (start_date c) (end_date c) r
     /\ In (game r) (selected_game c)
     /\ In (device r) (selected_device c)
     /\ In (area r) (selected_area c))
  /\ (selected_game c = [] \/ selected_device c = []
      \/ selected_area c = [] ->
      filtered_df c rs = []).
Proof.
  split.
  - intros r. unfold filtered_df. rewrite filter_In, mask_true. tauto.
  - intros H. apply filter_all_false. intros r.
    now apply mask_empty_selection.
Qed.

Lemma filtered_df_membership_witness :
  filtered_df Spec.none_selected Spec.abab = []
  /\ (In (Spec.session 2025 1 3 "A" "d" "x" 10)
        (filtered_df
           (mkConstraints (mkDate 2025 1 3) (mkDate 2025 1 3)
              ["A"%string] ["d"%string] ["x"%string])
           Spec.abab)).
Proof.
  split.
  - apply (proj2 (filtered_df_membership Spec.none_selected Spec.abab)).
    left. reflexivity.
  - apply (proj1 (filtered_df_membership _ Spec.abab)).
    vm_compute. intuition (auto; discriminate).
Defined.

(** C6. Filtering is a fixed point: filtering an already filtered table
    with the same constraints gives back that table, same rows in the
    same order. *)
Theorem filtered_df_fixed_point (c : constraints) (rs : list row) :
  filtered_df c (filtered_df c rs) = filtered_df c rs.
Proof. unfold filtered_df. apply filter_idempotent. Qed.

End FilterProps.

(** ** Facts about sorting, distinct values and counts *)

Module SeriesProps.

Import Series.

(** *** The order on strings *)

Lemma ascii_compare_lt_trans (a b c : ascii) :
  Ascii.compare a b = Lt -> Ascii.compare b c = Lt -> Ascii.compare a c = Lt.
Proof.
  unfold Ascii.compare. rewrite !N.compare_lt_iff. apply N.lt_trans.
Qed.

Lemma string_compare_lt_trans (s1 s2 s3 : string) :
  String.compare s1 s2 = Lt -> String.compare s2 s3 = Lt ->
  String.compare s1 s3 = Lt.
Proof.
  revert s2 s3.
  induction s1 as [|a s1 IH]; intros [|b s2] [|c s3]; simpl;
    try congruence.
  destruct (Ascii.compare a b) eqn:Eab, (Ascii.compare b c) eqn:Ebc;
    try discriminate; intros H1 H2.
  - apply Ascii.compare_eq_iff in Eab. subst b. rewrite Ebc. eauto.
  - apply Ascii.compare_eq_iff in Eab. subst b. now rewrite Ebc.
  - apply Ascii.compare_eq_iff in Ebc. subst c. now rewrite Eab.
  - now rewrite (ascii_compare_lt_trans a b c Eab Ebc).
Qed.

Lemma string_leb_trans (s1 s2 s3 : string) :
  String.leb s1 s2 = true -> String.leb s2 s3 = true ->
  String.leb s1 s3 = true.
Proof.
  unfold String.leb.
  destruct (String.compare s1 s2) eqn:E12; try discriminate;
    destruct (String.compare s2 s3) eqn:E23; try discriminate; intros _ _.
  - apply String.compare_eq_iff in E12. subst s2. now rewrite E23.
  - apply String.compare_eq_iff in E12. subst s2. now rewrite E23.
  - apply String.compare_eq_iff in E23. subst s3. now rewrite E12.
  - now rewrite (string_compare_lt_trans s1 s2 s3 E12 E23).
Qed.

(** *** Insertion sort *)

Section SortFacts.

Context {A : Type}.
Variable leb : A -> A -> bool.

Lemma insert_perm (x : A) (l : list A) :
  Permutation (x :: l) (insert leb x l).
Proof.
  induction l as [|y t IH]; simpl; [reflexivity|].
  destruct (leb x y); [reflexivity|].
  rewrite perm_swap. now apply perm_skip.
Qed.

Lemma sort_perm (l : list A) : Permutation l (sort leb l).
Proof.
  induction l as [|x t IH]; simpl; [reflexivity|].
  rewrite <- insert_perm. now apply perm_skip.
Qed.

Lemma sort_In (l : list A) (x : A) : In x (sort leb l) <-> In x l.
Proof.
  split; apply Permutation_in;
    [symmetry|]; apply sort_perm.
Qed.

Hypothesis leb_total : forall a b, leb a b = true \/ leb b a = true.
Hypothesis leb_trans :
  forall a b c, leb a b = true -> leb b c = true -> leb a c = true.

Lemma insert_sorted (x : A) (l : list A) :
  StronglySorted (fun a b => leb a b = true) l ->
  StronglySorted (fun a b => leb a b = true) (insert leb x l).
Proof.
  induction 1 as [|y t St IH Hy]; simpl.
  - repeat constructor.
  - destruct (leb x y) eqn:E.
    + constructor; [now constructor|].
      constructor; [exact E|].
      eapply Forall_impl; [|exact Hy]. intros z Hz.
      now apply (leb_trans x y z).
    + constructor; [exact IH|].
      rewrite Forall_forall. intros z Hz.
      apply (Permutation_in _ (Permutation_sym (insert_perm x t))) in Hz.
      destruct Hz as [<-|Hz].
      * destruct (leb_total x y) as [C|C]; [congruence | exact C].
      * rewrite Forall_forall in Hy. now apply Hy.
Qed.

Lemma sort_sorted (l : list A) :
  StronglySorted (fun a b => leb a b = true) (sort leb l).
Proof.
  induction l as [|x t IH]; simpl; [constructor|].
  now apply insert_sorted.
Qed.

(** The first element of the sorted list is below every element. *)
Lemma sort_head_least (l : list A) (m : A) (rest : list A) :
  sort leb l = m :: rest -> forall x, In x l -> leb m x = true.
Proof.
  intros E x Hx. apply sort_In in Hx. pose proof (sort_sorted l) as S.
  rewrite E in *. inversion S as [|? ? _ F]; subst.
  destruct Hx as [<-|Hx].
  - destruct (leb_total m m); assumption.
  - rewrite Forall_forall in F. now apply F.
Qed.

End SortFacts.

(** *** Distinct values and counts *)

Section UniqueFacts.

Context {A : Type}.
Variable eqb : A -> A -> bool.
Hypothesis eqb_eq : forall x y, eqb x y = true <-> x = y.

Lemma eqb_refl (x : A) : eqb x x = true.
Proof. now apply eqb_eq. Qed.

Lemma unique_In (xs : list A) (x : A) : In x (unique eqb xs) <-> In x xs.
Proof.
  induction xs as [|y t IH]; simpl; [tauto|].
  rewrite filter_In, IH, negb_true_iff.
  split.
  - intros [->|[H _]]; auto.
  - intros [->|H]; [now left|].
    destruct (eqb y x) eqn:E; [left; now apply eqb_eq | right; auto].
Qed.

Lemma NoDup_filter (f : A -> bool) (l : list A) :
  NoDup l -> NoDup (filter f l).
Proof.
  induction 1 as [|x l Hx Hl IH]; simpl; [constructor|].
  destruct (f x); [constructor|]; auto.
  rewrite filter_In. tauto.
Qed.

Lemma unique_NoDup (xs : list A) : NoDup (unique eqb xs).
Proof.
  induction xs as [|y t IH]; simpl; constructor.
  - rewrite filter_In, eqb_refl. simpl. intros [_ H]. discriminate.
  - now apply NoDup_filter.
Qed.

Lemma count_cons (k x : A) (t : list A) :
  count eqb k (x :: t) = (if eqb k x then 1 else 0) + count eqb k t.
Proof. unfold count. simpl. now destruct (eqb k x). Qed.

Lemma count_pos_In (k : A) (xs : list A) :
  0 < count eqb k xs <-> In k xs.
Proof.
  induction xs as [|x t IH]; [simpl; unfold count; simpl; split; [lia | tauto]|].
  rewrite count_cons. simpl. destruct (eqb k x) eqn:E.
  - apply eqb_eq in E. subst. split; [auto | lia].
  - rewrite <- IH. split; [intros H; right; simpl in H; exact H|].
    intros [->|H]; [rewrite eqb_refl in E; discriminate | exact H].
Qed.

(** Over a duplicate-free list of keys, exactly one key matches [x]. *)
Lemma indicator_sum (x : A) (keys : list A) :
  NoDup keys -> In x keys ->
  list_sum (map (fun k => if eqb k x then 1 else 0) keys) = 1.
Proof.
  induction 1 as [|k keys Hk Hn IH]; simpl; [tauto|].
  intros [->|Hx].
  - rewrite eqb_refl. f_equal.
    clear IH Hn. induction keys as [|j keys IH]; simpl; [reflexivity|].
    destruct (eqb j x) eqn:E.
    + apply eqb_eq in E. subst. elim Hk. now left.
    + apply IH. intros H. apply Hk. now right.
  - destruct (eqb k x) eqn:E.
    + apply eqb_eq in E. subst. contradiction.
    + now apply IH.
Qed.

(** Every cell is counted under exactly one key. *)
Lemma counts_sum (keys xs : list A) :
  NoDup keys -> (forall x, In x xs -> In x keys) ->
  list_sum (map (fun k => count eqb k xs) keys) = List.length xs.
Proof.
  intros Hn. induction xs as [|x t IH]; intros Hin.
  - unfold count. simpl. clear. induction keys; simpl; auto.
  - assert (list_sum (map (fun k => count eqb k (x :: t)) keys)
            = list_sum (map (fun k => if eqb k x then 1 else 0) keys)
              + list_sum (map (fun k => count eqb k t) keys)) as ->.
    { clear. induction keys as [|k keys IHk]; simpl; [reflexivity|].
      rewrite IHk, count_cons. lia. }
    rewrite indicator_sum, IH; simpl; auto.
    + intros y Hy. apply Hin. now right.
    + apply Hin. now left.
Qed.

End UniqueFacts.

Lemma count_occurrences (xs : list string) (k : string) :
  count String.eqb k xs = Spec.occurrences xs k.
Proof.
  unfold Spec.occurrences.
  induction xs as [|x t IH]; [reflexivity|].
  rewrite (count_cons String.eqb). simpl. rewrite IH.
  destruct (String.eqb_spec k x), (string_dec x k); subst;
    simpl; congruence.
Qed.

(** *** The largest count *)

Lemma max_bound (f : string -> nat) (l : list string) (x : string) :
  In x l -> f x <= fold_right Nat.max 0 (map f l).
Proof.
  induction l as [|y t IH]; simpl; [tauto|].
  intros [->|H]; [lia | specialize (IH H); lia].
Qed.

Lemma max_attained (f : string -> nat) (l : list string) :
  l <> [] -> exists x, In x l /\ f x = fold_right Nat.max 0 (map f l).
Proof.
  induction l as [|y t IH]; [congruence|]. intros _.
  destruct t as [|z t'].
  - exists y. simpl. split; [auto | lia].
  - destruct IH as (x & Hx & E); [discriminate|].
    change (fold_right Nat.max 0 (map f (y :: z :: t')))
      with (Nat.max (f y) (fold_right Nat.max 0 (map f (z :: t')))).
    destruct (Nat.max_spec (f y) (fold_right Nat.max 0 (map f (z :: t'))))
      as [[_ ->] | [_ ->]].
    + exists x. split; [now right | exact E].
    + exists y. split; [now left | reflexivity].
Qed.

End SeriesProps.

(** ** Facts about the aggregations *)

Module AggregatorProps.

Import Dates Frame Series Aggregator SeriesProps.

Lemma string_eqb_eq (x y : string) : String.eqb x y = true <-> x = y.
Proof. apply String.eqb_eq. Qed.

(** *** [mode] *)

Lemma mode_first_least (xs : list string) :
  xs <> [] ->
  exists g, mode_first xs = inl g /\ Spec.least_most_frequent xs g.
Proof.
  intros Hne. unfold mode_first.
  set (f := fun k => count String.eqb k xs).
  set (cands := filter (fun k => f k =? max_count xs) (unique String.eqb xs)).
  change (mode xs) with (sort String.leb cands).
  assert (forall k, In k cands <-> In k xs /\ f k = max_count xs) as Hc.
  { intros k. unfold cands.
    now rewrite filter_In, (unique_In _ string_eqb_eq), Nat.eqb_eq. }
  destruct (max_attained f xs Hne) as (x & Hx & Ex).
  change (f x = max_count xs) in Ex.
  destruct (sort String.leb cands) as [|m rest] eqn:Es.
  - assert (In x (sort String.leb cands)) as H
      by (apply sort_In, Hc; auto).
    rewrite Es in H. contradiction.
  - exists m. split; [reflexivity|].
    assert (In m cands) as Hm by (apply (sort_In String.leb); rewrite Es; now left).
    apply Hc in Hm as [Hm Em].
    unfold Spec.least_most_frequent.
    split; [exact Hm|]. split.
    + intros h. rewrite <- !count_occurrences.
      change (f h <= f m). rewrite Em.
      destruct (in_dec string_dec h xs) as [Hh|Hh].
      * apply (max_bound f xs h Hh).
      * assert (~ 0 < f h) as Hz
          by (intros C; apply (count_pos_In _ string_eqb_eq) in C;
              contradiction).
        lia.
    + intros h Eh. rewrite <- !count_occurrences in Eh.
      change (f h = f m) in Eh.
      apply (sort_head_least String.leb String.leb_total string_leb_trans
               cands m rest Es).
      apply Hc. split; [|congruence].
      apply (count_pos_In _ string_eqb_eq). change (0 < f h). rewrite Eh.
      now apply (count_pos_In _ string_eqb_eq).
Qed.




(** C2 (what the script does).  On the empty filtered table the row count
    is 0 and [top_game] and [top_device] are the text [N/A], but the mean
    is [nan] and the tile of the average shows [nan], not [N/A]. *)
Theorem empty_table_kpis :
  total_sessions [] = 0
  /\ top_game [] = inl "N/A"%string
  /\ top_device [] = inl "N/A"%string
  /\ avg_duration [] = NaN
  /\ Script.format_1f false (avg_duration []) = "nan"%string
  /\ Filter.filtered_df Spec.none_selected
       (rows (Loader.load_data Spec.dec_jan_mar)) = []
  /\ In (Script.Metric "Avg Session (Mins)" "nan")
       (fst (Script.main Script.DefaultFile Spec.dec_jan_mar None
               Spec.none_selected))
  /\ ~ In (Script.Metric "Avg Session (Mins)" "N/A")
       (fst (Script.main Script.DefaultFile Spec.dec_jan_mar None
               Spec.none_selected)).
Proof.
  repeat split; try reflexivity.
  - vm_compute. tauto.
  - vm_compute. intuition discriminate.
Qed.

(** *** [value_counts] *)

Lemma list_sum_perm (l l' : list nat) :
  Permutation l l' -> list_sum l = list_sum l'.
Proof. induction 1; simpl; lia. Qed.

Lemma value_counts_perm (xs : list string) :
  Permutation
    (map (fun k => (k, count String.eqb k xs)) (unique String.eqb xs))
    (value_counts xs).
Proof. apply sort_perm. Qed.

Lemma value_counts_total (xs : list string) :
  list_sum (map snd (value_counts xs)) = List.length xs.
Proof.
  rewrite <- (list_sum_perm _ _
                (Permutation_map snd (value_counts_perm xs))).
  rewrite map_map. cbn [snd].
  apply (counts_sum _ string_eqb_eq).
  - apply (unique_NoDup _ string_eqb_eq).
  - intros x. apply (unique_In _ string_eqb_eq).
Qed.

Lemma value_counts_keys (xs : list string) :
  NoDup (map fst (value_counts xs)).
Proof.
  apply (Permutation_NoDup (Permutation_map fst (value_counts_perm xs))).
  rewrite map_map. cbn [fst]. rewrite map_id.
  apply (unique_NoDup _ string_eqb_eq).
Qed.

Lemma value_counts_entry (xs : list string) (x : string) :
  In x xs -> In (x, Spec.occurrences xs x) (value_counts xs).
Proof.
  intros H. apply (Permutation_in _ (value_counts_perm xs)).
  rewrite <- count_occurrences.
  apply (in_map (fun k => (k, count String.eqb k xs))).
  now apply (unique_In _ string_eqb_eq).
Qed.

End AggregatorProps.

(** ** Facts about the monthly averages *)

Module MonthlyProps.

Import Dates Frame Series Aggregator SeriesProps.

Local Open Scope Z_scope.

Lemma key_eqb_eq (a b : Z * string) : key_eqb a b = true <-> a = b.
Proof.
  destruct a as [n s], b as [n' s']. unfold key_eqb. cbn [fst snd].
  rewrite andb_true_iff, Z.eqb_eq, String.eqb_eq.
  split; [intros [-> ->]; reflexivity | intros [= -> ->]; auto].
Qed.

Lemma month_num_leb_total (a b : monthly) :
  (m_month_num a <=? m_month_num b) = true
  \/ (m_month_num b <=? m_month_num a) = true.
Proof. rewrite !Z.leb_le. lia. Qed.

Lemma month_num_leb_trans (a b c : monthly) :
  (m_month_num a <=? m_month_num b) = true ->
  (m_month_num b <=? m_month_num c) = true ->
  (m_month_num a <=? m_month_num c) = true.
Proof. rewrite !Z.leb_le. lia. Qed.

Lemma StronglySorted_impl {A : Type} (R R' : A -> A -> Prop) (l : list A) :
  (forall a b, R a b -> R' a b) ->
  StronglySorted R l -> StronglySorted R' l.
Proof.
  intros H. induction 1 as [|x l S IH F]; constructor; auto.
  eapply Forall_impl; [|exact F]. auto.
Qed.




(** The rows the script averages for a key are the rows of that
    group. *)
Lemma group_filter (n : Z) (m : string) (fd : list row) :
  filter (fun r => key_eqb (n, m) (group_key r)) fd = Spec.group_rows n m fd.
Proof.
  unfold Spec.group_rows. apply filter_ext. intros r.
  unfold key_eqb, group_key. cbn [fst snd].
  now rewrite Z.eqb_sym, String.eqb_sym.
Qed.

Lemma group_keys_In (fd : list row) (k : Z * string) :
  In k (sort key_leb (unique key_eqb (map group_key fd))) <->
  exists r, In r fd /\ month_num r = fst k /\ month r = snd k.
Proof.
  rewrite sort_In, (unique_In _ key_eqb_eq), in_map_iff.
  unfold group_key. split.
  - intros (r & <- & Hr). exists r. auto.
  - intros (r & Hr & E1 & E2). exists r. split; [|exact Hr].
    destruct k. cbn in *. congruence.
Qed.

Lemma group_keys_NoDup (fd : list row) :
  NoDup (sort key_leb (unique key_eqb (map group_key fd))).
Proof.
  apply (Permutation_NoDup (sort_perm key_leb _)).
  apply (unique_NoDup _ key_eqb_eq).
Qed.

Lemma groupby_mean_keys (fd : list row) :
  map (fun e => (m_month_num e, m_month e)) (groupby_mean fd)
  = sort key_leb (unique key_eqb (map group_key fd)).
Proof.
  unfold groupby_mean. rewrite map_map. cbn [m_month_num m_month].
  erewrite map_ext; [apply map_id|]. now intros [n m].
Qed.

Lemma groupby_mean_In (fd : list row) (n : Z) (m : string) (v : pyfloat) :
  In (mkMonthly n m v) (groupby_mean fd) <->
  (exists r, In r fd /\ month_num r = n /\ month r = m)
  /\ v = mean (map duration_minutes (Spec.group_rows n m fd)).
Proof.
  unfold groupby_mean. rewrite in_map_iff. split.
  - intros ([n' m'] & E & Hk). cbn [fst snd] in E.
    injection E as -> -> <-. split.
    + now apply group_keys_In in Hk.
    + now rewrite group_filter.
  - intros (Hr & ->). exists (n, m). split.
    + cbn [fst snd]. now rewrite group_filter.
    + now apply group_keys_In.
Qed.


End MonthlyProps.

(** ** Facts about the render pass *)

Module ScriptProps.

Import Frame Loader Script.

Lemma required_check_fails (file : DataFrame) :
  ~ In "date"%string (normalize_columns (columns file))
  \/ ~ In "duration_minutes"%string (normalize_columns (columns file)) ->
  forallb (PyStr.contains (columns (load_data file))) required_cols = false.
Proof.
  intros H. unfold required_cols. cbn [forallb].
  rewrite andb_true_r. apply andb_false_iff.
  destruct H as [H|H]; [left | right];
    apply LoaderProps.contains_false; rewrite LoaderProps.load_data_columns;
    intros [C | [_ [C|C]]]; try contradiction; discriminate.
Qed.

(** C8. When the normalised labels of the loaded sheet lack [date] or
    lack [duration_minutes], the render pass shows the error message and
    stops there: after the page title the only widget is the error, the
    pass ends by [st.stop], and no KPI tile, chart or table of filtered
    rows is produced. *)
Theorem missing_required_column_halts
  (data_source : data_source_choice) (default_file : DataFrame)
  (uploaded_file : option DataFrame) (ui : Filter.constraints)
  (file : DataFrame) :
  file_to_load data_source default_file uploaded_file = Some file ->
  ~ In "date"%string (normalize_columns (columns file))
  \/ ~ In "duration_minutes"%string (normalize_columns (columns file)) ->
  main data_source default_file uploaded_file ui
  = ([ SidebarHeader "Data Source" ; SidebarHeader "Filter Data" ;
       Title "LUMOPlay Usage & Metrics Dashboard" ;
       Error missing_columns_message ],
     inr Stop)
  /\ Forall (fun w => Spec.shows_results w = false)
       (fst (main data_source default_file uploaded_file ui)).
Proof.
  intros Hfile Hmiss.
  assert (main data_source default_file uploaded_file ui
          = ([ SidebarHeader "Data Source" ; SidebarHeader "Filter Data" ;
               Title "LUMOPlay Usage & Metrics Dashboard" ;
               Error missing_columns_message ],
             inr Stop)) as E.
  { unfold main. rewrite Hfile. cbv zeta.
    rewrite (required_check_fails file Hmiss). reflexivity. }
  split; [exact E|]. rewrite E. repeat constructor.
Qed.

Lemma missing_required_column_halts_witness :
  snd (main DefaultFile Spec.no_date_sheet None Spec.none_selected) = inr Stop.
Proof.
  destruct (missing_required_column_halts DefaultFile Spec.no_date_sheet
              None Spec.none_selected Spec.no_date_sheet) as [E _].
  - reflexivity.
  - left. vm_compute. intuition discriminate.
  - rewrite E. reflexivity.
Defined.

End ScriptProps.

(** ** More about [clean_device_name] *)

Module DeviceExtra.

Import PyStr Device DeviceProps.
Local Open Scope string_scope.

Lemma abbrev_test_app (abbrev suffix : string) :
  suffix <> "" ->
  startswith (abbrev ++ suffix) abbrev
  && (len abbrev <? len (abbrev ++ suffix))%nat = true.
Proof.
  intros Hne. rewrite startswith_app, len_app. simpl.
  apply Nat.ltb_lt. pose proof (len_pos suffix Hne). lia.
Qed.

(** Either the name carries an abbreviation, or the underscore rule
    applies to it. *)
Lemma abbreviated_or_fallthrough (name : string) :
  Vocabulary.abbreviated name
  \/ (~ Vocabulary.abbreviated name
      /\ clean_device_name name = replace "_" " " name).
Proof.
  destruct (startswith name "BL" && (len "BL" <? len name)%nat) eqn:E1.
  - left. apply abbrev_test_inv in E1 as (sfx & Hne & E).
    exists sfx. auto.
  - destruct (startswith name "BR" && (len "BR" <? len name)%nat) eqn:E2.
    + left. apply abbrev_test_inv in E2 as (sfx & Hne & E).
      exists sfx. auto.
    + right.
      assert (~ Vocabulary.abbreviated name) as N.
      { intros (sfx & Hne & [-> | ->]).
        - rewrite (abbrev_test_app "BL" sfx Hne) in E1. discriminate.
        - rewrite (abbrev_test_app "BR" sfx Hne) in E2. discriminate. }
      split; [exact N|].
      apply clean_fallthrough. intros sfx Hne.
      split; intros ->; apply N; exists sfx; auto.
Qed.

Lemma replace_char_inv (c x : ascii) :
  x <> " "%char ->
  (if Ascii.eqb c "_" then " "%char else c) = x -> c = x.
Proof. destruct (Ascii.eqb c "_"); congruence. Qed.

(** The underscore rule neither creates nor removes an abbreviation. *)
Lemma replace_abbreviated (name : string) :
  Vocabulary.abbreviated (replace "_" " " name) ->
  Vocabulary.abbreviated name.
Proof.
  intros (sfx & Hne & H).
  destruct name as [|c1 [|c2 rest]]; simpl in H;
    try (destruct H; discriminate).
  exists rest. split.
  - intros ->. destruct H as [H|H]; injection H as _ _ H;
      subst sfx; now apply Hne.
  - destruct H as [H|H]; [left | right]; injection H as H1 H2 _;
      apply replace_char_inv in H1, H2; try discriminate; now subst.
Qed.

Lemma count_char_replace (s : string) :
  count_char "_" (replace "_" " " s) = 0.
Proof.
  induction s as [|c s IH]; simpl; [reflexivity|]. rewrite IH.
  destruct (Ascii.eqb c "_") eqn:E; [reflexivity|]. now rewrite E.
Qed.

Lemma replace_fixed (s : string) :
  replace "_" " " s = s <-> count_char "_" s = 0.
Proof.
  induction s as [|c s IH]; simpl; [tauto|].
  destruct (Ascii.eqb_spec c "_") as [->|N].
  - split; [discriminate | lia].
  - rewrite <- IH. simpl. split; [now intros [= ->] | now intros ->].
Qed.

(** X1. The cleaned name never carries an abbreviation: it is never [BL] or
    [BR] followed by more characters. *)
Theorem clean_device_name_expands_all (name : string) :
  ~ Vocabulary.abbreviated (clean_device_name name).
Proof.
  destruct (abbreviated_or_fallthrough name)
    as [(sfx & Hne & [-> | ->]) | [N ->]].
  - rewrite (clean_BL sfx Hne). intros (s & _ & [H|H]); discriminate.
  - rewrite (clean_BR sfx Hne). intros (s & _ & [H|H]); discriminate.
  - intros H. now apply N, replace_abbreviated.
Qed.

(** X2. Unless the name carries an abbreviation, the cleaned name has no
    underscore; in every case it has at most the underscores of the
    name. *)
Theorem clean_device_name_underscores (name : string) :
  (~ Vocabulary.abbreviated name ->
   count_char "_" (clean_device_name name) = 0)
  /\ count_char "_" (clean_device_name name) <= count_char "_" name.
Proof.
  destruct (abbreviated_or_fallthrough name)
    as [(sfx & Hne & [-> | ->]) | [N ->]].
  - split; [intros N; elim N; exists sfx; auto|].
    rewrite (clean_BL sfx Hne), !count_char_app. simpl. lia.
  - split; [intros N; elim N; exists sfx; auto|].
    rewrite (clean_BR sfx Hne), !count_char_app. simpl. lia.
  - rewrite count_char_replace. split; [reflexivity | lia].
Qed.

Lemma clean_device_name_underscores_witness :
  count_char "_" (clean_device_name "Left_Pad_3") = 0.
Proof.
  apply (proj1 (clean_device_name_underscores "Left_Pad_3")).
  intros (sfx & _ & [H|H]); discriminate.
Defined.

(** X3. Cleaning a cleaned name applies the underscore rule to it, so
    cleaning twice equals cleaning once exactly when the cleaned name has
    no underscore; [BL_1] is a name for which it differs. *)
Theorem clean_device_name_twice :
  (forall name : string,
     clean_device_name (clean_device_name name)
     = replace "_" " " (clean_device_name name)
     /\ (clean_device_name (clean_device_name name)
         = clean_device_name name
         <-> count_char "_" (clean_device_name name) = 0))
  /\ clean_device_name (clean_device_name "BL_1")
     <> clean_device_name "BL_1".
Proof.
  split; [|discriminate].
  intros name.
  assert (clean_device_name (clean_device_name name)
          = replace "_" " " (clean_device_name name)) as E.
  { destruct (abbreviated_or_fallthrough (clean_device_name name))
      as [A | [_ E]]; [|exact E].
    now apply clean_device_name_expands_all in A. }
  split; [exact E|]. rewrite E. apply replace_fixed.
Qed.

End DeviceExtra.

(** ** More about the loader *)

Module LoaderExtra.

Import PyStr Dates Frame Loader LoaderProps.

(** *** Column labels *)

Lemma lower_char_not_upper (c : ascii) :
  Vocabulary.is_upper (lower_char c) = false.
Proof. Vocabulary.each_ascii c. Qed.

Lemma lower_char_idem (c : ascii) : lower_char (lower_char c) = lower_char c.
Proof. Vocabulary.each_ascii c. Qed.

Lemma isspace_lower_char (c : ascii) : isspace (lower_char c) = isspace c.
Proof. Vocabulary.each_ascii c. Qed.

Lemma lower_no_upper (s : string) :
  Vocabulary.all_chars (fun c => negb (Vocabulary.is_upper c)) (lower s)
  = true.
Proof.
  induction s as [|c s IH]; simpl; [reflexivity|].
  now rewrite lower_char_not_upper, IH.
Qed.

Lemma lower_idem (s : string) : lower (lower s) = lower s.
Proof.
  induction s as [|c s IH]; simpl; [reflexivity|].
  now rewrite lower_char_idem, IH.
Qed.

Lemma lstrip_all_chars (p : ascii -> bool) (s : string) :
  Vocabulary.all_chars p s = true ->
  Vocabulary.all_chars p (lstrip s) = true.
Proof.
  induction s as [|c s IH]; simpl; [auto|]. intros H.
  destruct (isspace c); [|exact H].
  apply andb_true_iff in H. now apply IH.
Qed.

Lemma rstrip_all_chars (p : ascii -> bool) (s : string) :
  Vocabulary.all_chars p s = true ->
  Vocabulary.all_chars p (rstrip s) = true.
Proof.
  induction s as [|c s IH]; simpl; [auto|]. intros H.
  apply andb_true_iff in H as [Hc Hs]. specialize (IH Hs).
  destruct (rstrip s) as [|d t].
  - destruct (isspace c); simpl; [reflexivity | now rewrite Hc].
  - change (p c && Vocabulary.all_chars p (String d t) = true).
    now rewrite Hc, IH.
Qed.

Lemma lstrip_first (s : string) :
  Vocabulary.not_space (Vocabulary.first_char (lstrip s)).
Proof.
  induction s as [|c s IH]; simpl; [exact I|].
  destruct (isspace c) eqn:E; [exact IH | exact E].
Qed.

Lemma lstrip_fixed (s : string) :
  Vocabulary.not_space (Vocabulary.first_char s) -> lstrip s = s.
Proof. destruct s as [|c s]; simpl; [auto | now intros ->]. Qed.

Lemma rstrip_first (s : string) :
  Vocabulary.not_space (Vocabulary.first_char s) ->
  Vocabulary.not_space (Vocabulary.first_char (rstrip s)).
Proof.
  destruct s as [|c s]; simpl; [auto|]. intros H.
  destruct (rstrip s); [rewrite H|]; exact H.
Qed.

Lemma rstrip_last (s : string) :
  Vocabulary.not_space (Vocabulary.last_char (rstrip s)).
Proof.
  induction s as [|c s IH]; simpl; [exact I|].
  destruct (rstrip s) as [|d t].
  - destruct (isspace c) eqn:E; [exact I | exact E].
  - exact IH.
Qed.

Lemma rstrip_idem (s : string) : rstrip (rstrip s) = rstrip s.
Proof.
  induction s as [|c s IH]; simpl; [reflexivity|].
  destruct (rstrip s) as [|d t] eqn:E.
  - destruct (isspace c) eqn:Ec; simpl; [reflexivity | now rewrite Ec].
  - change (rstrip (String c (String d t))) with
      (match rstrip (String d t) with
       | EmptyString =>
           if isspace c then EmptyString else String c EmptyString
       | String _ _ as u => String c u
       end).
    now rewrite IH.
Qed.

Lemma strip_idem (s : string) : strip (strip s) = strip s.
Proof.
  unfold strip.
  rewrite (lstrip_fixed (rstrip (lstrip s)))
    by apply rstrip_first, lstrip_first.
  apply rstrip_idem.
Qed.

Lemma lower_lstrip (s : string) : lower (lstrip s) = lstrip (lower s).
Proof.
  induction s as [|c s IH]; simpl; [reflexivity|].
  rewrite isspace_lower_char. now destruct (isspace c).
Qed.

Lemma lower_rstrip (s : string) : lower (rstrip s) = rstrip (lower s).
Proof.
  induction s as [|c s IH]; simpl; [reflexivity|].
  rewrite <- IH, isspace_lower_char.
  destruct (rstrip s); [destruct (isspace c)|]; reflexivity.
Qed.

Lemma lower_strip (s : string) : lower (strip s) = strip (lower s).
Proof. unfold strip. now rewrite lower_rstrip, lower_lstrip. Qed.

Lemma normalize_label_normalized (c : string) :
  Vocabulary.normalized (strip (lower c)).
Proof.
  unfold Vocabulary.normalized, strip. repeat split.
  - apply rstrip_all_chars, lstrip_all_chars, lower_no_upper.
  - apply rstrip_first, lstrip_first.
  - apply rstrip_last.
Qed.

Lemma lower_char_ascii (c : ascii) :
  implb (nat_of_ascii c <? 128) (nat_of_ascii (lower_char c) <? 128) = true.
Proof. Vocabulary.each_ascii c. Qed.

Lemma lower_ascii_only (s : string) :
  Vocabulary.ascii_only s = true -> Vocabulary.ascii_only (lower s) = true.
Proof.
  unfold Vocabulary.ascii_only.
  induction s as [|c s IH]; simpl; [auto|]. intros H.
  apply andb_true_iff in H as [Hc Hs].
  pose proof (lower_char_ascii c) as L. rewrite Hc in L. simpl in L.
  now rewrite L, IH.
Qed.

Lemma normalize_label_ascii (c : string) :
  Vocabulary.ascii_only c = true ->
  Vocabulary.ascii_only (strip (lower c)) = true.
Proof.
  intros H. unfold strip, Vocabulary.ascii_only.
  apply rstrip_all_chars, lstrip_all_chars. now apply lower_ascii_only.
Qed.

(** X4. For a sheet whose labels are pure ASCII, every label of the
    loaded frame is pure ASCII, free of capitals and of white space at
    its ends, and the sheet's labels keep their number and order. *)
Theorem load_data_labels_normalized (file : DataFrame) :
  Forall (fun label => Vocabulary.ascii_only label = true) (columns file) ->
  Forall Vocabulary.normalized (columns (load_data file))
  /\ Forall (fun label => Vocabulary.ascii_only label = true)
       (columns (load_data file))
  /\ List.length (normalize_columns (columns file))
     = List.length (columns file)
  /\ forall i label,
       nth_error (columns file) i = Some label ->
       nth_error (columns (load_data file)) i = Some (strip (lower label)).
Proof.
  intros Hascii. rewrite Forall_forall in Hascii.
  split; [|split; [|split]].
  - apply Forall_forall. intros c Hc.
    apply load_data_columns in Hc as [Hc | [_ [-> | ->]]].
    + unfold normalize_columns in Hc. apply in_map_iff in Hc as (c0 & <- & _).
      apply normalize_label_normalized.
    + vm_compute. auto.
    + vm_compute. auto.
  - apply Forall_forall. intros c Hc.
    apply load_data_columns in Hc as [Hc | [_ [-> | ->]]];
      try reflexivity.
    unfold normalize_columns in Hc. apply in_map_iff in Hc as (c0 & <- & H0).
    now apply normalize_label_ascii, Hascii.
  - unfold normalize_columns. apply length_map.
  - intros i label H.
    assert (nth_error (normalize_columns (columns file)) i
            = Some (strip (lower label))) as E
      by (unfold normalize_columns; now rewrite nth_error_map, H).
    assert (forall l cols, nth_error cols i = Some (strip (lower label)) ->
              nth_error (set_column l cols) i = Some (strip (lower label)))
      as Hset.
    { intros l cols Hn. unfold set_column.
      destruct (contains cols l); [exact Hn|].
      rewrite nth_error_app1; [exact Hn|].
      apply nth_error_Some. congruence. }
    unfold load_data. cbn [columns rows].
    destruct (contains (normalize_columns (columns file)) "date");
      cbn [columns rows];
      destruct (contains _ "device"); cbn [columns]; auto.
Qed.

Lemma load_data_labels_normalized_witness :
  nth_error (columns (load_data Spec.dec_jan_mar)) 4
  = Some (strip (lower "Duration_Minutes")).
Proof.
  apply (proj2 (proj2 (proj2
           (load_data_labels_normalized Spec.dec_jan_mar
              ltac:(vm_compute; repeat constructor))))).
  reflexivity.
Defined.

(** X5. On pure ASCII labels the normalisation is idempotent:
    normalising labels that are already normalised changes nothing, and
    the normalised labels are pure ASCII again. *)
Theorem normalize_columns_idempotent (cols : list string) :
  Forall (fun label => Vocabulary.ascii_only label = true) cols ->
  normalize_columns (normalize_columns cols) = normalize_columns cols
  /\ Forall (fun label => Vocabulary.ascii_only label = true)
       (normalize_columns cols).
Proof.
  intros Hascii. split.
  - unfold normalize_columns. rewrite map_map. apply map_ext. intros c.
    now rewrite lower_strip, lower_idem, strip_idem.
  - unfold normalize_columns. apply Forall_map.
    eapply Forall_impl; [|exact Hascii].
    intros c. apply normalize_label_ascii.
Qed.

Lemma normalize_columns_idempotent_witness :
  normalize_columns (normalize_columns [ " Date " ; "GAME" ]%string)
  = normalize_columns [ " Date " ; "GAME" ]%string.
Proof.
  apply (normalize_columns_idempotent [ " Date " ; "GAME" ]%string).
  vm_compute. repeat constructor.
Defined.

End LoaderExtra.

(** ** What the loader does to the rows *)

Module LoaderRows.

Import PyStr Dates Frame Loader LoaderProps.

Lemma contains_ext (xs ys : list string) (x : string) :
  (In x xs <-> In x ys) -> contains xs x = contains ys x.
Proof.
  intros H. destruct (contains ys x) eqn:E.
  - apply contains_In. apply H. now apply contains_In.
  - apply contains_false. rewrite H. now apply contains_false.
Qed.

Lemma device_after_month (cols : list string) :
  contains (set_column "month_num" (set_column "month" cols)) "device"
  = contains cols "device".
Proof.
  apply contains_ext. rewrite !in_set_column.
  split; [intros [H | [H | H]]; auto; discriminate | auto].
Qed.

(** The loaded rows, by the two column tests of [load_data]. *)
Lemma load_data_rows (file : DataFrame) :
  rows (load_data file)
  = map (fun r =>
           (if contains (normalize_columns (columns file)) "device"
            then clean_row else fun x => x)
             ((if contains (normalize_columns (columns file)) "date"
               then shift_row else fun x => x) r))
      (rows file).
Proof.
  unfold load_data. cbn [columns rows].
  destruct (contains (normalize_columns (columns file)) "date");
    cbn [columns rows]; rewrite ?device_after_month;
    destruct (contains (normalize_columns (columns file)) "device");
    cbn [rows]; rewrite ?map_map; try reflexivity;
    symmetry; apply map_id.
Qed.

Lemma set_column_NoDup (label : string) (cols : list string) :
  NoDup cols -> NoDup (set_column label cols).
Proof.
  intros H. unfold set_column. destruct (contains cols label) eqn:E.
  - exact H.
  - apply contains_false in E.
    apply (Permutation_NoDup (Permutation_cons_append cols label)).
    now constructor.
Qed.

(** X6. The loader keeps the rows in number and order and never touches the
    game, area and duration cells. *)
Theorem load_data_keeps_rows (file : DataFrame) :
  List.length (rows (load_data file)) = List.length (rows file)
  /\ map game (rows (load_data file)) = map game (rows file)
  /\ map area (rows (load_data file)) = map area (rows file)
  /\ map duration_minutes (rows (load_data file))
     = map duration_minutes (rows file).
Proof.
  rewrite load_data_rows, length_map, !map_map.
  repeat split; apply map_ext; intros r;
    destruct (contains _ "device"), (contains _ "date"); reflexivity.
Qed.

(** X7. The device cells are cleaned exactly when the sheet has a [device]
    column; without one they are left as they are. *)
Theorem load_data_device_column (file : DataFrame) :
  (In "device"%string (normalize_columns (columns file)) ->
   map device (rows (load_data file))
   = map Device.clean_device_name (map device (rows file)))
  /\ (~ In "device"%string (normalize_columns (columns file)) ->
      map device (rows (load_data file)) = map device (rows file)).
Proof.
  rewrite load_data_rows, !map_map. split; intros H.
  - apply contains_In in H. rewrite H. apply map_ext. intros r.
    now destruct (contains _ "date").
  - apply contains_false in H. rewrite H. apply map_ext. intros r.
    now destruct (contains _ "date").
Qed.

Lemma load_data_device_column_witness :
  map device (rows (load_data Spec.dec_jan_mar))
  = map Device.clean_device_name (map device (rows Spec.dec_jan_mar))
  /\ map device (rows (load_data Vocabulary.no_device_sheet))
     = map device (rows Vocabulary.no_device_sheet).
Proof.
  split.
  - apply (proj1 (load_data_device_column Spec.dec_jan_mar)).
    vm_compute. tauto.
  - apply (proj2 (load_data_device_column Vocabulary.no_device_sheet)).
    vm_compute. intuition discriminate.
Defined.

(** X8. Without a [date] column the loader shifts nothing and adds no
    column: the labels are the normalised labels of the sheet and the
    date, month and month number cells are left as they are. *)
Theorem load_data_without_date (file : DataFrame) :
  ~ In "date"%string (normalize_columns (columns file)) ->
  columns (load_data file) = normalize_columns (columns file)
  /\ map date (rows (load_data file)) = map date (rows file)
  /\ map month (rows (load_data file)) = map month (rows file)
  /\ map month_num (rows (load_data file)) = map month_num (rows file).
Proof.
  intros H. apply contains_false in H. split.
  - unfold load_data. cbn [columns rows]. rewrite H. cbn [columns].
    now destruct (contains _ "device").
  - rewrite load_data_rows, H, !map_map.
    repeat split; apply map_ext; intros r;
      now destruct (contains _ "device").
Qed.

Lemma load_data_without_date_witness :
  columns (load_data Spec.no_date_sheet)
  = normalize_columns (columns Spec.no_date_sheet).
Proof.
  apply (load_data_without_date Spec.no_date_sheet).
  vm_compute. intuition discriminate.
Defined.

(** X9. The loader adds [month] and [month_num] exactly when the sheet has a
    [date] column, and it never duplicates a label: distinct sheet labels
    give distinct frame labels. *)
Theorem load_data_month_columns (file : DataFrame) :
  (In "month"%string (columns (load_data file)) <->
   In "month"%string (normalize_columns (columns file))
   \/ In "date"%string (normalize_columns (columns file)))
  /\ (In "month_num"%string (columns (load_data file)) <->
      In "month_num"%string (normalize_columns (columns file))
      \/ In "date"%string (normalize_columns (columns file)))
  /\ (NoDup (normalize_columns (columns file)) ->
      NoDup (columns (load_data file))).
Proof.
  split; [|split].
  - rewrite load_data_columns. intuition discriminate.
  - rewrite load_data_columns. intuition discriminate.
  - intros H. unfold load_data. cbn [columns rows].
    destruct (contains (normalize_columns (columns file)) "date");
      cbn [columns rows]; destruct (contains _ "device"); cbn [columns];
      auto using set_column_NoDup.
Qed.

Lemma load_data_month_columns_witness :
  NoDup (columns (load_data Spec.dec_jan_mar)).
Proof.
  apply (proj2 (proj2 (load_data_month_columns Spec.dec_jan_mar))).
  vm_compute. repeat constructor; simpl; intuition discriminate.
Defined.

Local Open Scope Z_scope.

(** X10. The one-year shift keeps the day order of timestamps, though not
    strictly: 28 and 29 February 2024 are both moved to 28 February
    2025. *)
Theorem add_years_keeps_day_order :
  (forall a b : datetime,
     Vocabulary.day_le_ts a b ->
     Vocabulary.day_le_ts (add_years 1 a) (add_years 1 b))
  /\ valid (mkDatetime 2024 2 28 0) /\ valid (mkDatetime 2024 2 29 0)
  /\ date_of (add_years 1 (mkDatetime 2024 2 28 0))
     = date_of (add_years 1 (mkDatetime 2024 2 29 0)).
Proof.
  split; [|split; [|split]]; try reflexivity;
    try (unfold valid; cbn; lia).
  intros a b. unfold Vocabulary.day_le_ts, Spec.day_le, add_years.
  cbn [dt_year dt_month dt_day].
  intros [H | [Ey [H | [Em H]]]]; try lia.
  rewrite Ey, Em. lia.
Qed.

Lemma add_years_keeps_day_order_witness :
  Vocabulary.day_le_ts (add_years 1 (mkDatetime 2024 2 29 0))
    (add_years 1 (mkDatetime 2024 3 1 0)).
Proof.
  apply (proj1 add_years_keeps_day_order). unfold Vocabulary.day_le_ts,
    Spec.day_le. cbn. lia.
Defined.

End LoaderRows.

(** ** More about the filter and the sidebar defaults *)

Module FilterExtra.

Import Dates Frame Filter FilterProps Sidebar.

Local Open Scope Z_scope.

Lemma filter_all_true {A : Type} (f : A -> bool) (l : list A) :
  (forall x, In x l -> f x = true) -> filter f l = l.
Proof.
  induction l as [|x l IH]; simpl; intros H; [reflexivity|].
  rewrite (H x) by auto. f_equal. apply IH. auto.
Qed.

Lemma filter_narrow {A : Type} (f g : A -> bool) (l : list A) :
  (forall x, f x = true -> g x = true) ->
  filter f (filter g l) = filter f l.
Proof.
  intros H. induction l as [|x l IH]; simpl; [reflexivity|].
  destruct (g x) eqn:G; simpl.
  - now rewrite IH.
  - destruct (f x) eqn:F; [|exact IH].
    apply H in F. congruence.
Qed.

Lemma filter_swap {A : Type} (f g : A -> bool) (l : list A) :
  filter f (filter g l) = filter g (filter f l).
Proof.
  induction l as [|x l IH]; simpl; [reflexivity|].
  destruct (f x) eqn:F, (g x) eqn:G; simpl; rewrite ?F, ?G, IH;
    reflexivity.
Qed.

Lemma date_leb_trans (a b c : pydate) :
  date_leb a b = true -> date_leb b c = true -> date_leb a c = true.
Proof. rewrite !date_leb_day_le. unfold Spec.day_le. lia. Qed.

Lemma mask_wider (c c' : constraints) (r : row) :
  Vocabulary.wider c c' -> mask c r = true -> mask c' r = true.
Proof.
  intros (Hs & He & Hg & Hd & Ha). unfold mask.
  rewrite !andb_true_iff, !isin_In.
  intros ((((H1 & H2) & H3) & H4) & H5).
  repeat split; eauto using date_leb_trans.
Qed.

(** X11. With the end date before the start date the filtered table has no
    rows. *)
Theorem filtered_df_inverted_range (c : constraints) (rs : list row) :
  Vocabulary.day_lt (end_date c) (start_date c) ->
  filtered_df c rs = [].
Proof.
  intros H. apply filter_all_false. intros r.
  destruct (mask c r) eqn:E; [|reflexivity].
  unfold mask in E. rewrite !andb_true_iff, !date_leb_day_le in E.
  destruct E as ((((H1 & H2) & _) & _) & _).
  unfold Vocabulary.day_lt, Spec.day_le in *. lia.
Qed.

Lemma filtered_df_inverted_range_witness :
  filtered_df
    (mkConstraints (mkDate 2025 1 4) (mkDate 2025 1 1)
       ["A"; "B"]%string ["d"%string] ["x"%string])
    Spec.abab
  = [].
Proof.
  apply filtered_df_inverted_range. unfold Vocabulary.day_lt. cbn. lia.
Defined.

(** X12. Two filters can be applied in either order, and the rows kept are
    the rows each of them keeps; the filtered table is never longer than
    the table. *)
Theorem filtered_df_compose (c1 c2 : constraints) (rs : list row) :
  filtered_df c1 (filtered_df c2 rs) = filtered_df c2 (filtered_df c1 rs)
  /\ (forall r, In r (filtered_df c1 (filtered_df c2 rs)) <->
                In r (filtered_df c1 rs) /\ In r (filtered_df c2 rs))
  /\ (List.length (filtered_df c1 rs) <= List.length rs)%nat.
Proof.
  unfold filtered_df. split; [apply filter_swap|]. split.
  - intros r. rewrite !filter_In. tauto.
  - apply filter_length_le.
Qed.

(** X13. Narrowing an already filtered table gives what the narrower filter
    gives on the whole table, when the first filter allows whatever the
    narrower one allows. *)
Theorem filtered_df_narrow (c c' : constraints) (rs : list row) :
  Vocabulary.wider c c' ->
  filtered_df c (filtered_df c' rs) = filtered_df c rs.
Proof.
  intros H. unfold filtered_df. apply filter_narrow.
  intros r. now apply mask_wider.
Qed.

Lemma filtered_df_narrow_witness :
  filtered_df
    (mkConstraints (mkDate 2025 1 2) (mkDate 2025 1 3)
       ["A"%string] ["d"%string] ["x"%string])
    (filtered_df
       (mkConstraints (mkDate 2025 1 1) (mkDate 2025 1 4)
          ["A"; "B"]%string ["d"%string] ["x"%string])
       Spec.abab)
  = filtered_df
      (mkConstraints (mkDate 2025 1 2) (mkDate 2025 1 3)
         ["A"%string] ["d"%string] ["x"%string])
      Spec.abab.
Proof.
  apply filtered_df_narrow. unfold Vocabulary.wider. cbn.
  repeat split; try reflexivity; intros x [<-|[]]; simpl; auto.
Defined.

(** *** The defaults of the widgets *)

Lemma ts_leb_iff (a b : datetime) :
  ts_leb a b = true <->
  dt_year a < dt_year b
  \/ (dt_year a = dt_year b
      /\ (dt_month a < dt_month b
          \/ (dt_month a = dt_month b
              /\ (dt_day a < dt_day b
                  \/ (dt_day a = dt_day b /\ dt_nanos a <= dt_nanos b))))).
Proof.
  unfold ts_leb.
  rewrite !orb_true_iff, !andb_true_iff, !orb_true_iff, !andb_true_iff,
    !orb_true_iff, !andb_true_iff.
  rewrite !Z.ltb_lt, !Z.eqb_eq, Z.leb_le. reflexivity.
Qed.

Lemma ts_leb_total (a b : datetime) :
  ts_leb a b = true \/ ts_leb b a = true.
Proof. rewrite !ts_leb_iff. lia. Qed.

Lemma ts_leb_trans (a b c : datetime) :
  ts_leb a b = true -> ts_leb b c = true -> ts_leb a c = true.
Proof. rewrite !ts_leb_iff. lia. Qed.

Lemma ts_leb_refl (a : datetime) : ts_leb a a = true.
Proof. rewrite ts_leb_iff. lia. Qed.

(** Dropping the time of day keeps the order. *)
Lemma ts_leb_date (a b : datetime) :
  ts_leb a b = true -> date_leb (date_of a) (date_of b) = true.
Proof.
  rewrite ts_leb_iff, date_leb_day_le. unfold Spec.day_le.
  cbn [date_of d_year d_month d_day]. lia.
Qed.

Lemma fold_min_lower (t : list datetime) (x : datetime) :
  ts_leb (fold_left ts_min t x) x = true
  /\ forall y, In y t -> ts_leb (fold_left ts_min t x) y = true.
Proof.
  revert x. induction t as [|z t IH]; intros x; simpl.
  - split; [apply ts_leb_refl | tauto].
  - destruct (IH (ts_min x z)) as [H1 H2].
    assert (ts_leb (ts_min x z) x = true /\ ts_leb (ts_min x z) z = true)
      as [Hx Hz].
    { unfold ts_min. destruct (ts_leb x z) eqn:E.
      - split; [apply ts_leb_refl | exact E].
      - split; [|apply ts_leb_refl].
        destruct (ts_leb_total x z); congruence. }
    split; [eauto using ts_leb_trans|].
    intros y [<-|Hy]; eauto using ts_leb_trans.
Qed.

Lemma fold_max_upper (t : list datetime) (x : datetime) :
  ts_leb x (fold_left ts_max t x) = true
  /\ forall y, In y t -> ts_leb y (fold_left ts_max t x) = true.
Proof.
  revert x. induction t as [|z t IH]; intros x; simpl.
  - split; [apply ts_leb_refl | tauto].
  - destruct (IH (ts_max x z)) as [H1 H2].
    assert (ts_leb x (ts_max x z) = true /\ ts_leb z (ts_max x z) = true)
      as [Hx Hz].
    { unfold ts_max. destruct (ts_leb x z) eqn:E.
      - split; [exact E | apply ts_leb_refl].
      - split; [apply ts_leb_refl|].
        destruct (ts_leb_total x z); congruence. }
    split; [eauto using ts_leb_trans|].
    intros y [<-|Hy]; eauto using ts_leb_trans.
Qed.

(** X14. On a frame with at least one row the untouched widgets select the
    whole frame: the default constraints exist and filtering by them
    returns every row. *)
Theorem default_constraints_keep_all (rs : list row) :
  rs <> [] ->
  exists c : constraints,
    default_constraints rs = Some c /\ filtered_df c rs = rs.
Proof.
  intros Hne. destruct rs as [|r0 rs]; [congruence|].
  unfold default_constraints. cbn [map series_min series_max].
  eexists. split; [reflexivity|].
  apply filter_all_true. intros r Hr.
  destruct (fold_min_lower (map date rs) (date r0)) as [L0 L].
  destruct (fold_max_upper (map date rs) (date r0)) as [U0 U].
  unfold mask.
  cbn [start_date end_date selected_game selected_device selected_area].
  rewrite !andb_true_iff, !isin_In.
  assert (forall f : row -> string,
            In (f r) (Series.unique String.eqb (map f (r0 :: rs)))) as Hu.
  { intros f. apply (SeriesProps.unique_In _ String.eqb_eq).
    now apply in_map. }
  repeat split; try apply Hu; apply ts_leb_date;
    destruct Hr as [<-|Hr]; auto using in_map.
Qed.

Lemma default_constraints_keep_all_witness :
  exists c : constraints,
    default_constraints Spec.abab = Some c
    /\ filtered_df c Spec.abab = Spec.abab.
Proof. apply default_constraints_keep_all. discriminate. Defined.

End FilterExtra.

(** ** More about the KPIs and the breakdowns *)

Module AggregatorExtra.

Import Dates Frame Series Aggregator SeriesProps AggregatorProps.

Lemma count_geb_total (a b : string * nat) :
  Vocabulary.count_geb a b = true \/ Vocabulary.count_geb b a = true.
Proof. unfold Vocabulary.count_geb. rewrite !Nat.leb_le. lia. Qed.

Lemma count_geb_trans (a b c : string * nat) :
  Vocabulary.count_geb a b = true -> Vocabulary.count_geb b c = true ->
  Vocabulary.count_geb a c = true.
Proof. unfold Vocabulary.count_geb. rewrite !Nat.leb_le. lia. Qed.

Lemma value_counts_In (xs : list string) (k : string) (n : nat) :
  In (k, n) (value_counts xs) <-> In k xs /\ n = Spec.occurrences xs k.
Proof.
  unfold value_counts. rewrite sort_In, in_map_iff. split.
  - intros (k' & [= -> <-] & H).
    apply (proj1 (unique_In _ string_eqb_eq _ _)) in H.
    split; [exact H | apply count_occurrences].
  - intros (H & ->). exists k. rewrite count_occurrences.
    split; [reflexivity | now apply (unique_In _ string_eqb_eq)].
Qed.

Lemma value_counts_sorted (xs : list string) :
  StronglySorted (fun a b => snd b <= snd a) (value_counts xs).
Proof.
  eapply MonthlyProps.StronglySorted_impl;
    [|apply (sort_sorted Vocabulary.count_geb count_geb_total
               count_geb_trans)].
  intros a b. apply Nat.leb_le.
Qed.

Lemma occurrences_pos (xs : list string) (k : string) :
  In k xs -> 0 < Spec.occurrences xs k.
Proof.
  intros H. rewrite <- count_occurrences.
  now apply (count_pos_In _ string_eqb_eq).
Qed.

(** X16. Each breakdown lists exactly the labels occurring in the filtered
    table, each with its number of rows, which is positive, and lists
    them from the largest count to the smallest. *)
Theorem breakdowns_sorted_by_count (fd : list row) :
  StronglySorted (fun a b => snd b <= snd a) (game_counts fd)
  /\ StronglySorted (fun a b => snd b <= snd a) (device_counts fd)
  /\ (forall k n,
        In (k, n) (game_counts fd) <->
        In k (map game fd) /\ n = Spec.occurrences (map game fd) k)
  /\ (forall k n,
        In (k, n) (device_counts fd) <->
        In k (map device fd) /\ n = Spec.occurrences (map device fd) k)
  /\ (forall k n,
        In (k, n) (game_counts fd) \/ In (k, n) (device_counts fd) ->
        0 < n).
Proof.
  unfold game_counts, device_counts.
  split; [apply value_counts_sorted|].
  split; [apply value_counts_sorted|].
  split; [intros k n; apply value_counts_In|].
  split; [intros k n; apply value_counts_In|].
  intros k n [H|H];
    apply (proj1 (value_counts_In _ _ _)) in H as [H ->];
    now apply occurrences_pos.
Qed.



End AggregatorExtra.

(** ** The monthly chart of a loaded frame *)

Module MonthlyExtra.

Import Dates Frame Series Aggregator SeriesProps MonthlyProps.

Local Open Scope Z_scope.

(** In a frame loaded from a sheet with a [date] column the month name
    of a row is the one of its month number. *)
Lemma loaded_month_label (file : DataFrame) (r : row) :
  In "date"%string (Loader.normalize_columns (columns file)) ->
  In r (rows (Loader.load_data file)) ->
  month r = Vocabulary.month_label (month_num r).
Proof.
  intros D Hr.
  destruct (LoaderProps.load_data_rows_dated file D) as [E | E];
    rewrite E in Hr; clear E.
  - apply in_map_iff in Hr as (r0 & <- & _). reflexivity.
  - apply in_map_iff in Hr as (r1 & <- & Hr).
    apply in_map_iff in Hr as (r0 & <- & _). reflexivity.
Qed.

Lemma monthly_dur_entry (fd : list row) (e : monthly) :
  In e (monthly_dur fd) ->
  exists r, In r fd /\ month_num r = m_month_num e /\ month r = m_month e.
Proof.
  unfold monthly_dur. rewrite sort_In. destruct e as [n m v].
  intros H. apply groupby_mean_In in H as [H _]. exact H.
Qed.

Lemma monthly_dur_keys_NoDup (fd : list row) :
  NoDup (map (fun e => (m_month_num e, m_month e)) (monthly_dur fd)).
Proof.
  unfold monthly_dur.
  eapply Permutation_NoDup; [apply Permutation_map, sort_perm|].
  rewrite groupby_mean_keys. apply group_keys_NoDup.
Qed.

Lemma monthly_dur_sorted (fd : list row) :
  StronglySorted (fun a b => m_month_num a <= m_month_num b)
    (monthly_dur fd).
Proof.
  unfold monthly_dur.
  eapply StronglySorted_impl;
    [|apply sort_sorted;
      [apply month_num_leb_total | apply month_num_leb_trans]].
  intros a b. apply Z.leb_le.
Qed.

Lemma sorted_distinct_strict {A : Type} (f : A -> Z) (l : list A) :
  StronglySorted (fun a b => f a <= f b) l ->
  NoDup (map f l) ->
  StronglySorted (fun a b => f a < f b) l.
Proof.
  induction 1 as [|x l S IH F]; intros N; constructor.
  - apply IH. now inversion N.
  - apply Forall_forall. intros y Hy.
    rewrite Forall_forall in F. specialize (F y Hy).
    assert (f x <> f y).
    { intros E. inversion N as [|? ? Hx _]; subst.
      apply Hx. rewrite E. now apply in_map. }
    lia.
Qed.

(** X18. For a sheet with a [date] column, whatever the filter, the monthly
    chart has at most one point per month number: its month numbers are
    strictly increasing, and each point carries the name of its month
    number. *)
Theorem monthly_dur_one_point_per_month
  (file : DataFrame) (c : Filter.constraints) :
  In "date"%string (Loader.normalize_columns (columns file)) ->
  StronglySorted (fun a b => m_month_num a < m_month_num b)
    (monthly_dur (Filter.filtered_df c (rows (Loader.load_data file))))
  /\ Forall (fun e => m_month e = Vocabulary.month_label (m_month_num e))
       (monthly_dur (Filter.filtered_df c (rows (Loader.load_data file)))).
Proof.
  intros D.
  set (fd := Filter.filtered_df c (rows (Loader.load_data file))).
  assert (Forall (fun e => m_month e
                           = Vocabulary.month_label (m_month_num e))
            (monthly_dur fd)) as L.
  { apply Forall_forall. intros e He.
    apply monthly_dur_entry in He as (r & Hr & <- & <-).
    apply (loaded_month_label file r D).
    unfold fd, Filter.filtered_df in Hr. now apply filter_In in Hr. }
  split; [|exact L].
  apply sorted_distinct_strict; [apply monthly_dur_sorted|].
  apply (NoDup_map_inv (fun n => (n, Vocabulary.month_label n))).
  rewrite map_map.
  erewrite map_ext_in; [apply monthly_dur_keys_NoDup|].
  intros e He. cbn beta. rewrite Forall_forall in L.
  now rewrite (L e He).
Qed.

Lemma monthly_dur_one_point_per_month_witness :
  StronglySorted (fun a b => m_month_num a < m_month_num b)
    (monthly_dur
       (Filter.filtered_df Vocabulary.all_of_2025
          (rows (Loader.load_data Spec.dec_jan_mar)))).
Proof.
  apply (monthly_dur_one_point_per_month Spec.dec_jan_mar
           Vocabulary.all_of_2025).
  vm_compute. tauto.
Defined.

End MonthlyExtra.

(** ** More about the render pass *)

Module ScriptExtra.

Import Frame Loader Script Aggregator.

Lemma loaded_has (file : DataFrame) (label : string) :
  In label (normalize_columns (columns file)) ->
  PyStr.contains (columns (load_data file)) label = true.
Proof.
  intros H. apply LoaderProps.contains_In, LoaderProps.load_data_columns.
  now left.
Qed.

Lemma loaded_lacks (file : DataFrame) (label : string) :
  label <> "month"%string -> label <> "month_num"%string ->
  ~ In label (normalize_columns (columns file)) ->
  PyStr.contains (columns (load_data file)) label = false.
Proof.
  intros N1 N2 H.
  apply LoaderProps.contains_false. rewrite LoaderProps.load_data_columns.
  tauto.
Qed.

(** X20. The required-column check covers [date] and [duration_minutes]
    only.  A sheet with at least one row that has both but lacks [game],
    [device] or [area] passes the check and then fails on the first of
    these three labels that is missing: the pass ends with a [KeyError]
    for it, without the error message of the check and without any KPI
    tile, chart or table. *)
Theorem main_key_error
  (data_source : data_source_choice) (default_file : DataFrame)
  (uploaded_file : option DataFrame) (ui : Filter.constraints)
  (file : DataFrame) :
  file_to_load data_source default_file uploaded_file = Some file ->
  rows file <> [] ->
  In "date"%string (normalize_columns (columns file)) ->
  In "duration_minutes"%string (normalize_columns (columns file)) ->
  (~ In "game"%string (normalize_columns (columns file)) ->
   main data_source default_file uploaded_file ui
   = (Vocabulary.page_head, inr (Raise (KeyError "game"))))
  /\ (In "game"%string (normalize_columns (columns file)) ->
      ~ In "device"%string (normalize_columns (columns file)) ->
      main data_source default_file uploaded_file ui
      = (Vocabulary.page_head, inr (Raise (KeyError "device"))))
  /\ (In "game"%string (normalize_columns (columns file)) ->
      In "device"%string (normalize_columns (columns file)) ->
      ~ In "area"%string (normalize_columns (columns file)) ->
      main data_source default_file uploaded_file ui
      = (Vocabulary.page_head, inr (Raise (KeyError "area"))))
  /\ Forall (fun w => Spec.shows_results w = false) Vocabulary.page_head
  /\ ~ In (Error missing_columns_message) Vocabulary.page_head.
Proof.
  intros Hfile Hrows Hdate Hdur.
  pose proof (loaded_has file _ Hdate) as Cd.
  pose proof (loaded_has file _ Hdur) as Cm.
  assert (Frame.empty (rows (load_data file)) = false) as Ce.
  { pose proof (proj1 (LoaderRows.load_data_keeps_rows file)) as L.
    destruct (rows (load_data file)); [|reflexivity].
    destruct (rows file); [congruence | discriminate]. }
  split; [|split; [|split; [|split]]].
  - intros Ng.
    pose proof (loaded_lacks file "game" ltac:(discriminate)
                  ltac:(discriminate) Ng) as Cg.
    unfold main. rewrite Hfile. cbv zeta.
    unfold required_cols, getitem. cbn [forallb].
    rewrite Cd, Cm, Ce, Cg. reflexivity.
  - intros Hg Nd.
    pose proof (loaded_has file _ Hg) as Cg.
    pose proof (loaded_lacks file "device" ltac:(discriminate)
                  ltac:(discriminate) Nd) as Cv.
    unfold main. rewrite Hfile. cbv zeta.
    unfold required_cols, getitem. cbn [forallb].
    rewrite Cd, Cm, Ce, Cg, Cv. reflexivity.
  - intros Hg Hv Na.
    pose proof (loaded_has file _ Hg) as Cg.
    pose proof (loaded_has file _ Hv) as Cv.
    pose proof (loaded_lacks file "area" ltac:(discriminate)
                  ltac:(discriminate) Na) as Ca.
    unfold main. rewrite Hfile. cbv zeta.
    unfold required_cols, getitem. cbn [forallb].
    rewrite Cd, Cm, Ce, Cg, Cv, Ca. reflexivity.
  - repeat constructor.
  - vm_compute. intuition discriminate.
Qed.

Lemma main_key_error_witness :
  main DefaultFile Vocabulary.no_game_sheet None Spec.none_selected
  = (Vocabulary.page_head, inr (Raise (KeyError "game"))).
Proof.
  apply (main_key_error DefaultFile Vocabulary.no_game_sheet None
           Spec.none_selected Vocabulary.no_game_sheet).
  - reflexivity.
  - discriminate.
  - vm_compute. tauto.
  - vm_compute. tauto.
  - vm_compute. intuition discriminate.
Defined.



End ScriptExtra.

(** ** The breakdowns and the top game with blank Game cells *)

Module BlankProps.

Import Series Aggregator SeriesProps AggregatorProps.

Lemma dropna_with_game (fd : list Blank.row) :
  List.length (Blank.dropna (map Blank.game fd))
  = List.length (Blank.with_game fd).
Proof.
  unfold Blank.with_game.
  induction fd as [|r fd IH]; simpl; [reflexivity|].
  destruct (Blank.game r); simpl; now rewrite IH.
Qed.

Lemma dropna_In (fd : list Blank.row) (r : Blank.row) (g : string) :
  In r fd -> Blank.game r = Some g ->
  In g (Blank.dropna (map Blank.game fd)).
Proof.
  induction fd as [|r0 fd IH]; simpl; [tauto|].
  intros [->|H] E.
  - rewrite E. now left.
  - destruct (Blank.game r0); [right|]; auto.
Qed.

Lemma dropna_of_row (fd : list Frame.row) :
  Blank.dropna (map Blank.game (map Blank.of_row fd)) = map Frame.game fd.
Proof. induction fd as [|r fd IH]; simpl; [reflexivity | now rewrite IH]. Qed.

Lemma filter_length_all {A : Type} (f : A -> bool) (l : list A) :
  List.length (filter f l) = List.length l <->
  Forall (fun x => f x = true) l.
Proof.
  induction l as [|x l IH]; simpl.
  - split; [constructor | reflexivity].
  - pose proof (filter_length_le f l) as Hle.
    destruct (f x) eqn:E; simpl.
    + split.
      * intros H. constructor; [exact E|]. apply IH. lia.
      * intros H. apply Forall_inv_tail in H. apply IH in H. lia.
    + split; [lia|]. intros H. apply Forall_inv in H. congruence.
Qed.

(** C9 (as the script computes it).  The per-device counts sum to the
    row count.  The per-game counts sum to the number of rows whose Game
    cell is not blank, because [value_counts()] leaves the missing cells
    out: the sum is at most the row count and equals it exactly when no
    Game cell is blank.  Each breakdown has one entry per distinct label,
    and every row with a label has an entry holding the number of rows of
    that label.  On a table without blank cells both sums are the row
    count. *)
Theorem breakdown_counts_sum_with_blanks :
  (forall fd : list Blank.row,
     list_sum (map snd (Blank.device_counts fd)) = Blank.total_sessions fd
     /\ list_sum (map snd (Blank.game_counts fd))
        = List.length (Blank.with_game fd)
     /\ list_sum (map snd (Blank.game_counts fd)) <= Blank.total_sessions fd
     /\ (list_sum (map snd (Blank.game_counts fd)) = Blank.total_sessions fd
         <-> Forall (fun r => Blank.game r <> None) fd)
     /\ NoDup (map fst (Blank.game_counts fd))
     /\ NoDup (map fst (Blank.device_counts fd))
     /\ (forall r, In r fd ->
           In (Blank.device r,
               Spec.occurrences (map Blank.device fd) (Blank.device r))
             (Blank.device_counts fd)
           /\ forall g, Blank.game r = Some g ->
                In (g, Spec.occurrences
                         (Blank.dropna (map Blank.game fd)) g)
                  (Blank.game_counts fd)))
  /\ (forall fd : list Frame.row,
        Blank.game_counts (map Blank.of_row fd) = game_counts fd
        /\ Blank.device_counts (map Blank.of_row fd) = device_counts fd
        /\ list_sum (map snd (game_counts fd)) = total_sessions fd
        /\ list_sum (map snd (device_counts fd)) = total_sessions fd).
Proof.
  split.
  - intros fd.
    unfold Blank.device_counts, Blank.game_counts, Blank.total_sessions.
    rewrite !value_counts_total, length_map, dropna_with_game.
    split; [reflexivity|]. split; [reflexivity|].
    split; [apply filter_length_le|].
    split; [|split; [apply value_counts_keys|
             split; [apply value_counts_keys|]]].
    + unfold Blank.with_game. rewrite filter_length_all.
      split; apply Forall_impl; intros r; destruct (Blank.game r);
        congruence.
    + intros r Hr. split.
      * apply value_counts_entry. now apply in_map.
      * intros g E. apply value_counts_entry. now apply (dropna_In fd r).
  - intros fd.
    unfold Blank.game_counts, Blank.device_counts, game_counts,
      device_counts, total_sessions.
    rewrite dropna_of_row, !value_counts_total, !length_map, map_map.
    repeat split; reflexivity.
Qed.

Lemma breakdown_counts_sum_with_blanks_witness :
  list_sum (map snd (Blank.game_counts (map Blank.of_row Spec.abab)))
  = Blank.total_sessions (map Blank.of_row Spec.abab).
Proof.
  apply (proj1 (proj2 (proj2 (proj2
           (proj1 breakdown_counts_sum_with_blanks
              (map Blank.of_row Spec.abab)))))).
  repeat constructor; discriminate.
Defined.

(** C9 as stated fails: with one blank Game cell among two rows, both
    kept by the untouched widgets, the per-game counts sum to 1 and the
    row count is 2. *)
Lemma game_counts_leave_blank_rows_out :
  Blank.filtered_df Blank.untouched Blank.one_blank = Blank.one_blank
  /\ Blank.total_sessions Blank.one_blank = 2
  /\ Blank.game_counts Blank.one_blank = [ ("A"%string, 1) ]
  /\ list_sum (map snd (Blank.game_counts Blank.one_blank))
     <> Blank.total_sessions Blank.one_blank.
Proof. repeat split; try reflexivity. discriminate. Qed.

(** X21. With blank Game cells [top_game] looks at the other cells only:
    when at least one row has a game it is the least of the most frequent
    games among them, and on a table with rows whose Game cells are all
    blank [mode()] is empty and [mode()[0]] raises [KeyError].  A single
    row with a blank Game cell, kept by the filter, is such a table. *)
Theorem top_game_with_blanks :
  (forall fd : list Blank.row,
     Blank.with_game fd <> [] ->
     exists g, Blank.top_game fd = inl g
               /\ Spec.least_most_frequent
                    (Blank.dropna (map Blank.game fd)) g)
  /\ (forall fd : list Blank.row,
        fd <> [] -> Blank.with_game fd = [] ->
        Blank.top_game fd = inr (KeyError "0"))
  /\ Blank.filtered_df
       (Blank.mkConstraints (Dates.mkDate 2025 3 10) (Dates.mkDate 2025 3 10)
          [ None ] [ "Bioness Left 1"%string ] [ "x"%string ])
       Blank.all_blank
     = Blank.all_blank
  /\ Blank.top_game Blank.all_blank = inr (KeyError "0").
Proof.
  split; [|split; [|split; reflexivity]].
  - intros fd H.
    assert (Blank.dropna (map Blank.game fd) <> []) as Hne.
    { intros E. apply H. apply length_zero_iff_nil.
      now rewrite <- dropna_with_game, E. }
    destruct (mode_first_least _ Hne) as (g & Eg & Hg).
    exists g. split; [|exact Hg].
    unfold Blank.top_game. destruct fd; [now elim H | exact Eg].
  - intros fd Hne H.
    assert (Blank.dropna (map Blank.game fd) = []) as E.
    { apply length_zero_iff_nil. now rewrite dropna_with_game, H. }
    unfold Blank.top_game. destruct fd; [congruence|]. now rewrite E.
Qed.

Lemma top_game_with_blanks_witness :
  exists g, Blank.top_game Blank.one_blank = inl g
            /\ Spec.least_most_frequent
                 (Blank.dropna (map Blank.game Blank.one_blank)) g.
Proof.
  apply (proj1 top_game_with_blanks Blank.one_blank). discriminate.
Defined.

End BlankProps.
